(** * TalentScout: resume text extraction and information extraction

    A shallow embedding of [text_extractor.py] and [info_extractor.py], and
    the properties their specification states.

    - Python strings are Stdlib strings (characters with code points below
      256) with the methods the program calls ([find], [rfind], slicing,
      [lower], [endswith], [join]) on integer indices as Python has them.
    - Python objects are the type [value]; a [dict] is the list of its
      items in insertion order, with unique keys.
    - A call returns or raises: [outcome].  The file system, the logger
      and the standard output are an explicit [World] that computations
      thread through ([M]), so that a handler can log and re-raise.
    - PyMuPDF, PIL, PaddleOCR, the Ollama chat service and the [json] module
      are collaborators: interfaces (type classes) the program is
      parameterized by.  [PyJson] is an executable model of Python's [json]
      encoder and decoder on the integer fragment of JSON.
    - [os.path] is modelled in its POSIX flavour.

    The program comes first, then the vocabulary of the specification,
    then the properties and their instances at sample inputs. *)

From Stdlib Require Import ZArith String Ascii List Lia Bool.
From Stdlib Require Import DecimalString DecimalZ DecimalPos.
From stdpp Require Import base gmap strings list.
Import ListNotations.

(* ===================================================================== *)
(** * Python strings *)
(* ===================================================================== *)

Module PyStr.

(** [len(s)] *)
Definition len (s : string) : Z := Z.of_nat (String.length s).

(** [s.startswith(sub)] *)
Definition startswith (s sub : string) : bool := String.prefix sub s.

Fixpoint find_from (sub s : string) (i : Z) : Z :=
  if String.prefix sub s then i
  else match s with
       | EmptyString => (-1)%Z
       | String _ s' => find_from sub s' (i + 1)%Z
       end.

(** [s.find(sub)]: the lowest index where [sub] occurs, or [-1]. *)
Definition find (s sub : string) : Z := find_from sub s 0%Z.

Fixpoint rfind_from (sub s : string) (i last : Z) : Z :=
  let last' := if String.prefix sub s then i else last in
  match s with
  | EmptyString => last'
  | String _ s' => rfind_from sub s' (i + 1)%Z last'
  end.

(** [s.rfind(sub)]: the highest index where [sub] occurs, or [-1]. *)
Definition rfind (s sub : string) : Z := rfind_from sub s 0%Z (-1)%Z.

(** A slice bound is clamped the way Python does it: a negative index
    counts from the end, and everything is cut to [0 .. len]. *)
Definition clamp (n i : Z) : Z :=
  if (i <? 0)%Z then Z.max (i + n) 0 else Z.min i n.

(** [s[start:stop]]; an omitted bound is [None]. *)
Definition slice (s : string) (start stop : option Z) : string :=
  let n := len s in
  let a := match start with Some i => clamp n i | None => 0%Z end in
  let b := match stop with Some j => clamp n j | None => n end in
  substring (Z.to_nat a) (Z.to_nat (b - a)) s.

(** [s.endswith(suffix)] *)
Definition endswith (s suffix : string) : bool :=
  (String.length suffix <=? String.length s)%nat
  && String.eqb (substring (String.length s - String.length suffix)
                           (String.length suffix) s) suffix.

(** Case mapping of one character: the ASCII capitals and the capitals of
    the Latin-1 block (U+00C0 to U+00DE without the sign U+00D7). *)
Definition lower_char (c : ascii) : ascii :=
  let n := nat_of_ascii c in
  if ((65 <=? n) && (n <=? 90))%nat then ascii_of_nat (n + 32)
  else if ((192 <=? n) && (n <=? 222) && negb (n =? 215))%nat
       then ascii_of_nat (n + 32)
       else c.

(** [s.lower()] *)
Fixpoint lower (s : string) : string :=
  match s with
  | EmptyString => EmptyString
  | String c s' => String (lower_char c) (lower s')
  end.

(** [sep.join(parts)] *)
Fixpoint join (sep : string) (parts : list string) : string :=
  match parts with
  | [] => ""
  | [p] => p
  | p :: ps => p +:+ sep +:+ join sep ps
  end.

(** [s.rstrip(c)] for a single character [c]. *)
Fixpoint rstrip (c : ascii) (s : string) : string :=
  match s with
  | EmptyString => EmptyString
  | String a s' =>
      match rstrip c s' with
      | EmptyString => if Ascii.eqb a c then EmptyString else String a EmptyString
      | r => String a r
      end
  end.

(** [c * n]: the character repeated. *)
Fixpoint replicate (n : nat) (c : ascii) : string :=
  match n with
  | O => EmptyString
  | S n' => String c (replicate n' c)
  end.

Definition newline : string := String "010"%char EmptyString.
Definition dquote : ascii := "034"%char.
Definition quoted (s : string) : string :=
  String dquote (s +:+ String dquote EmptyString).

End PyStr.

(* ===================================================================== *)
(** * Python values, exceptions and the world *)
(* ===================================================================== *)

(** The Python objects the program handles: what [json.loads] builds and
    [json.dump] accepts.  A [dict] keeps its items in insertion order. *)
#[warnings="-register-all"]
Inductive value : Type :=
  | PyNone
  | PyBool (b : bool)
  | PyInt (n : Z)
  | PyStr (s : string)
  | PyList (items : list value)
  | PyDict (items : list (string * value)).

Definition dict : Type := list (string * value).

(** [d.get(key)] on the items of a dict: [None] when the key is absent. *)
Fixpoint dict_get (d : dict) (key : string) : option value :=
  match d with
  | [] => None
  | (k, v) :: d' => if String.eqb k key then Some v else dict_get d' key
  end.

(** [d[key] = v]: an existing key keeps its place, a new key goes last. *)
Fixpoint dict_set (d : dict) (key : string) (v : value) : dict :=
  match d with
  | [] => [(key, v)]
  | (k, x) :: d' =>
      if String.eqb k key then (k, v) :: d' else (k, x) :: dict_set d' key v
  end.

Definition dict_keys (d : dict) : list string := map fst d.

(** [dict(pairs)] *)
Definition dict_of_pairs (pairs : list (string * value)) : dict :=
  fold_left (fun d kv => dict_set d (fst kv) (snd kv)) pairs [].

(** The exception classes that occur; all of them derive from [Exception]. *)
Inductive exn_class : Type :=
  | FileNotFoundError | IsADirectoryError | PermissionError
  | UnicodeDecodeError | JSONDecodeError | AttributeError | TypeError
  | IndexError | ConnectionError | ResponseError | RuntimeError.

(** An exception object: its class and [str(e)]. *)
Record exn : Type := Exception { exn_class_of : exn_class; exn_str : string }.

(** What a call produces: a value, or an exception on its way up. *)
Inductive outcome (A : Type) : Type :=
  | Return (a : A)
  | Raise (e : exn).
Arguments Return {A} a.
Arguments Raise {A} e.

(** A node of the file system: a directory, a file holding UTF-8 encoded
    text, or a file whose bytes are not UTF-8 text (a PDF, an image). *)
Inductive node : Type :=
  | Directory
  | TextFile (text : string)
  | BinaryFile.

Inductive log_level : Type := INFO | ERROR.

Record World : Type := mkWorld {
  w_fs : gmap string node;            (* path to node *)
  w_readonly : gset string;           (* paths that cannot be opened for writing *)
  w_log : list (log_level * string);  (* what the logger received, oldest first *)
  w_stdout : list string              (* what was printed, oldest first *)
}.

(** Computations: they read and change the world and may raise. *)
Definition M (A : Type) : Type := World -> outcome A * World.

Definition ret {A} (a : A) : M A := fun w => (Return a, w).
Definition raise {A} (e : exn) : M A := fun w => (Raise e, w).
Definition bind {A B} (m : M A) (k : A -> M B) : M B :=
  fun w => match m w with
           | (Return a, w') => k a w'
           | (Raise e, w') => (Raise e, w')
           end.
(** [try: m  except Exception as e: h e] *)
Definition try_except {A} (m : M A) (h : exn -> M A) : M A :=
  fun w => match m w with
           | (Return a, w') => (Return a, w')
           | (Raise e, w') => h e w'
           end.
(** The result of a collaborator, brought into a computation. *)
Definition lift {A} (o : outcome A) : M A := fun w => (o, w).

Declare Scope py_scope.
Delimit Scope py_scope with py.
Notation "x <- m ;; k" := (bind m (fun x => k))
  (at level 100, m at next level, right associativity) : py_scope.
Notation "m ;;; k" := (bind m (fun _ => k))
  (at level 100, right associativity) : py_scope.
Open Scope py_scope.

(** [for x in xs: acc = body acc x], stopping at the first exception. *)
Fixpoint for_each {A B} (xs : list A) (acc : B) (body : B -> A -> M B) : M B :=
  match xs with
  | [] => ret acc
  | x :: xs' => acc' <- body acc x ;; for_each xs' acc' body
  end.

(** [print(line)] *)
Definition print (line : string) : M unit :=
  fun w => (Return tt,
            mkWorld (w_fs w) (w_readonly w) (w_log w) (w_stdout w ++ [line])).

(** [logger.error(msg)] and [logger.info(msg)] *)
Definition logger_log (lvl : log_level) (msg : string) : M unit :=
  fun w => (Return tt,
            mkWorld (w_fs w) (w_readonly w) (w_log w ++ [(lvl, msg)]) (w_stdout w)).
Definition logger_error := logger_log ERROR.
Definition logger_info := logger_log INFO.

(** [repr] of a path in an [OSError] message. *)
Definition repr_path (p : string) : string := "'" +:+ p +:+ "'".

(** [with open(path, 'r', encoding='utf-8') as f: f.read()] *)
Definition read_text (path : string) : M string :=
  fun w => match w_fs w !! path with
           | Some (TextFile text) => (Return text, w)
           | Some BinaryFile =>
               (Raise (Exception UnicodeDecodeError
                         "'utf-8' codec can't decode byte: invalid start byte"), w)
           | Some Directory =>
               (Raise (Exception IsADirectoryError
                         ("[Errno 21] Is a directory: " +:+ repr_path path)), w)
           | None =>
               (Raise (Exception FileNotFoundError
                         ("[Errno 2] No such file or directory: " +:+ repr_path path)), w)
           end.

(** [with open(path, 'w', encoding='utf-8') as f: f.write(text)]: the file is
    created or replaced. *)
Definition write_text (path text : string) : M unit :=
  fun w => if decide (path ∈ w_readonly w) then
             (Raise (Exception PermissionError
                       ("[Errno 13] Permission denied: " +:+ repr_path path)), w)
           else match w_fs w !! path with
                | Some Directory =>
                    (Raise (Exception IsADirectoryError
                              ("[Errno 21] Is a directory: " +:+ repr_path path)), w)
                | _ => (Return tt,
                        mkWorld (<[path := TextFile text]> (w_fs w))
                                (w_readonly w) (w_log w) (w_stdout w))
                end.

(** [os.path.exists(path)] *)
Definition path_exists (path : string) : M bool :=
  fun w => (Return (bool_decide (is_Some (w_fs w !! path))), w).

(* ===================================================================== *)
(** * [os.path] (POSIX flavour) *)
(* ===================================================================== *)

Module os_path.
Import PyStr.

(** [os.path.basename(p)]: what follows the last slash. *)
Definition basename (p : string) : string :=
  let i := (rfind p "/" + 1)%Z in
  slice p (Some i) None.

(** [os.path.dirname(p)]: what precedes the last slash, without trailing
    slashes unless it consists of slashes only. *)
Definition dirname (p : string) : string :=
  let i := (rfind p "/" + 1)%Z in
  let head := slice p None (Some i) in
  if negb (String.eqb head "")
     && negb (String.eqb head (replicate (String.length head) "/"))
  then rstrip "/" head
  else head.

(** The loop of [genericpath._splitext] that skips the leading dots of
    the file name: [n] bounds the remaining iterations. *)
Fixpoint splitext_scan (n : nat) (p : string) (filenameIndex dotIndex : Z)
  : string * string :=
  match n with
  | O => (p, "")
  | S n' =>
      if negb (String.eqb (slice p (Some filenameIndex) (Some (filenameIndex + 1)%Z)) ".")
      then (slice p None (Some dotIndex), slice p (Some dotIndex) None)
      else splitext_scan n' p (filenameIndex + 1)%Z dotIndex
  end.

(** [os.path.splitext(p)]: the extension starts at the last dot of the
    file name, leading dots not counted. *)
Definition splitext (p : string) : string * string :=
  let sepIndex := rfind p "/" in
  let dotIndex := rfind p "." in
  if (dotIndex >? sepIndex)%Z then
    let filenameIndex := (sepIndex + 1)%Z in
    splitext_scan (Z.to_nat (dotIndex - filenameIndex)) p filenameIndex dotIndex
  else (p, "").

(** [os.path.join(a, b)] *)
Definition join (a b : string) : string :=
  if startswith b "/" then b
  else if String.eqb a "" || endswith a "/" then a +:+ b
  else a +:+ "/" +:+ b.

End os_path.

(* ===================================================================== *)
(** * The [json] module *)
(* ===================================================================== *)

(** The interface the program uses. *)
Class JsonModule : Type := {
  (** [json.loads(s)] *)
  json_loads : string -> outcome value;
  (** [json.dumps(obj, indent=2)], the text [json.dump(obj, f, indent=2)]
      writes to [f] *)
  json_dumps_indent2 : value -> string
}.

(** A model of Python's encoder and decoder for the values above.  JSON
    numbers are the integers here: a literal with a fraction or an exponent
    and the constants NaN and Infinity denote floats, which are outside this
    model and rejected; so is an escape [\uXXXX] above U+00FF. *)
Module PyJson.
Import PyStr.

Definition backslash : ascii := "092"%char.

Definition hex_digit (n : nat) : ascii :=
  match String.get n "0123456789abcdef" with
  | Some c => c
  | None => "0"%char
  end.

(** One character of a string, as [py_encode_basestring_ascii] writes
    it: printable ASCII stays, the rest is escaped. *)
Definition escape_char (c : ascii) : string :=
  let n := nat_of_ascii c in
  if Ascii.eqb c dquote then String backslash (String dquote "")
  else if Ascii.eqb c backslash then String backslash (String backslash "")
  else if (n =? 10)%nat then String backslash "n"
  else if (n =? 13)%nat then String backslash "r"
  else if (n =? 9)%nat then String backslash "t"
  else if (n =? 8)%nat then String backslash "b"
  else if (n =? 12)%nat then String backslash "f"
  else if ((n <? 32) || (127 <=? n))%nat then
    String backslash
      (String "u" (String "0" (String "0"
         (String (hex_digit (n / 16)) (String (hex_digit (n mod 16)) "")))))
  else String c "".

Fixpoint escape (s : string) : string :=
  match s with
  | EmptyString => ""
  | String c s' => escape_char c +:+ escape s'
  end.

Definition encode_basestring_ascii (s : string) : string :=
  String dquote (escape s +:+ String dquote "").

(** [int.__repr__] *)
Definition int_repr (n : Z) : string := NilZero.string_of_int (Z.to_int n).

(** A line break and the indentation of a nesting level ([indent=2]). *)
Definition newline_indent (level : nat) : string :=
  String "010"%char (replicate (2 * level) " ").

(** The encoder at a nesting level, with [indent=2], the item separator
    [","] and the key separator [": "]. *)
Fixpoint encode (level : nat) (v : value) {struct v} : string :=
  match v with
  | PyNone => "null"
  | PyBool true => "true"
  | PyBool false => "false"
  | PyInt n => int_repr n
  | PyStr s => encode_basestring_ascii s
  | PyList [] => "[]"
  | PyList items =>
      "[" +:+ newline_indent (S level)
      +:+ join ("," +:+ newline_indent (S level)) (map (encode (S level)) items)
      +:+ newline_indent level +:+ "]"
  | PyDict [] => "{}"
  | PyDict items =>
      "{" +:+ newline_indent (S level)
      +:+ join ("," +:+ newline_indent (S level))
            (map (fun kv => match kv with
                            | (k, x) => encode_basestring_ascii k +:+ ": "
                                        +:+ encode (S level) x
                            end) items)
      +:+ newline_indent level +:+ "}"
  end.

Definition dumps_indent2 (v : value) : string := encode 0 v.

(** ** The decoder *)

Definition is_whitespace (c : ascii) : bool :=
  Ascii.eqb c " " || Ascii.eqb c "009" || Ascii.eqb c "010" || Ascii.eqb c "013".

(** The match of the [WHITESPACE] pattern is dropped. *)
Fixpoint skip_ws (s : string) : string :=
  match s with
  | String c s' => if is_whitespace c then skip_ws s' else s
  | EmptyString => s
  end.

Definition hex_value (c : ascii) : option nat :=
  let n := nat_of_ascii c in
  if ((48 <=? n) && (n <=? 57))%nat then Some (n - 48)
  else if ((97 <=? n) && (n <=? 102))%nat then Some (n - 87)
  else if ((65 <=? n) && (n <=? 70))%nat then Some (n - 55)
  else None.

(** The four hexadecimal digits of a [\uXXXX] escape. *)
Definition decode_uXXXX (h1 h2 h3 h4 : ascii) : option nat :=
  match hex_value h1, hex_value h2, hex_value h3, hex_value h4 with
  | Some a, Some b, Some c, Some d => Some (((a * 16 + b) * 16 + c) * 16 + d)
  | _, _, _, _ => None
  end.

(** The [BACKSLASH] table of the one-letter escapes. *)
Definition unescape (e : ascii) : option ascii :=
  if Ascii.eqb e dquote then Some dquote
  else if Ascii.eqb e backslash then Some backslash
  else if Ascii.eqb e "/" then Some "/"%char
  else if Ascii.eqb e "b" then Some "008"%char
  else if Ascii.eqb e "f" then Some "012"%char
  else if Ascii.eqb e "n" then Some "010"%char
  else if Ascii.eqb e "r" then Some "013"%char
  else if Ascii.eqb e "t" then Some "009"%char
  else None.

Definition cons_char (c : ascii) (r : option (string * string))
  : option (string * string) :=
  match r with
  | Some (str, rest) => Some (String c str, rest)
  | None => None
  end.

(** [py_scanstring] in strict mode, from behind the opening quote: the
    decoded string and what follows the closing quote. *)
Fixpoint scanstring (s : string) : option (string * string) :=
  match s with
  | EmptyString => None
  | String c r =>
      if Ascii.eqb c dquote then Some ("", r)
      else if Ascii.eqb c backslash then
        match r with
        | EmptyString => None
        | String e r' =>
            if Ascii.eqb e "u" then
              match r' with
              | String h1 (String h2 (String h3 (String h4 r''))) =>
                  match decode_uXXXX h1 h2 h3 h4 with
                  | Some n =>
                      if (n <? 256)%nat
                      then cons_char (ascii_of_nat n) (scanstring r'')
                      else None
                  | None => None
                  end
              | _ => None
              end
            else
              match unescape e with
              | Some ch => cons_char ch (scanstring r')
              | None => None
              end
        end
      else if (nat_of_ascii c <? 32)%nat then None
      else cons_char c (scanstring r)
  end.

Definition digit_of_char (c : ascii) : option (Decimal.uint -> Decimal.uint) :=
  match c with
  | "0" => Some Decimal.D0 | "1" => Some Decimal.D1 | "2" => Some Decimal.D2
  | "3" => Some Decimal.D3 | "4" => Some Decimal.D4 | "5" => Some Decimal.D5
  | "6" => Some Decimal.D6 | "7" => Some Decimal.D7 | "8" => Some Decimal.D8
  | "9" => Some Decimal.D9 | _ => None
  end%char.

Definition is_digit (c : ascii) : bool :=
  match digit_of_char c with Some _ => true | None => false end.

(** The longest run of digits. *)
Fixpoint scan_digits (s : string) : Decimal.uint * string :=
  match s with
  | EmptyString => (Decimal.Nil, s)
  | String c s' =>
      match digit_of_char c with
      | Some d => let (ds, rest) := scan_digits s' in (d ds, rest)
      | None => (Decimal.Nil, s)
      end
  end.

(** The integer part of [NUMBER_RE]: a lone zero, or a run of digits
    that starts with a digit from 1 to 9. *)
Definition scan_integer (s : string) : option (Decimal.uint * string) :=
  match s with
  | String "0" rest => Some (Decimal.D0 Decimal.Nil, rest)
  | String c _ => if is_digit c then Some (scan_digits s) else None
  | EmptyString => None
  end.

Definition starts_with_digit (s : string) : bool :=
  match s with String c _ => is_digit c | EmptyString => false end.

(** Does [NUMBER_RE] go on with a fraction or an exponent: is the literal
    a float? *)
Definition float_follows (s : string) : bool :=
  match s with
  | String "." r => starts_with_digit r
  | String c r =>
      if Ascii.eqb c "e" || Ascii.eqb c "E" then
        match r with
        | String sign r' =>
            if Ascii.eqb sign "+" || Ascii.eqb sign "-"
            then starts_with_digit r' else is_digit sign
        | EmptyString => false
        end
      else false
  | EmptyString => false
  end.

Definition scan_number (s : string) : option (value * string) :=
  let '(negative, body) :=
    match s with
    | String "-" r => (true, r)
    | _ => (false, s)
    end in
  match scan_integer body with
  | Some (d, rest) =>
      if float_follows rest then None
      else Some (PyInt (Z.of_int (if negative then Decimal.Neg d else Decimal.Pos d)),
                 rest)
  | None => None
  end.

(** The next character is [c]: what follows it. *)
Definition expect (c : ascii) (s : string) : option string :=
  match s with
  | String a r => if Ascii.eqb a c then Some r else None
  | EmptyString => None
  end.

(** The text starts with [word]: what follows it. *)
Fixpoint strip_prefix (word s : string) : option string :=
  match word with
  | EmptyString => Some s
  | String a word' =>
      match s with
      | String b s' => if Ascii.eqb a b then strip_prefix word' s' else None
      | EmptyString => None
      end
  end.

Definition scan_constant (word : string) (v : value) (s : string)
  : option (value * string) :=
  match strip_prefix word s with
  | Some r => Some (v, r)
  | None => None
  end.

(** [scan_once]; [JSONArray] and [JSONObject] from behind the opening
    bracket.  [fuel] bounds the depth of the calls. *)
Fixpoint scan_once (fuel : nat) (s : string) : option (value * string) :=
  match fuel with
  | O => None
  | S fuel' =>
      match s with
      | EmptyString => None
      | String c rest =>
          if Ascii.eqb c dquote then
            match scanstring rest with
            | Some (str, r) => Some (PyStr str, r)
            | None => None
            end
          else if Ascii.eqb c "{" then
            let r := skip_ws rest in
            match expect "}" r with
            | Some r' => Some (PyDict [], r')
            | None =>
                match scan_members fuel' r with
                | Some (pairs, r') => Some (PyDict (dict_of_pairs pairs), r')
                | None => None
                end
            end
          else if Ascii.eqb c "[" then
            let r := skip_ws rest in
            match expect "]" r with
            | Some r' => Some (PyList [], r')
            | None =>
                match scan_items fuel' r with
                | Some (values, r') => Some (PyList values, r')
                | None => None
                end
            end
          else if Ascii.eqb c "n" then scan_constant "null" PyNone s
          else if Ascii.eqb c "t" then scan_constant "true" (PyBool true) s
          else if Ascii.eqb c "f" then scan_constant "false" (PyBool false) s
          else scan_number s
      end
  end
(** the values of an array, from the first character of a value *)
with scan_items (fuel : nat) (s : string) : option (list value * string) :=
  match fuel with
  | O => None
  | S fuel' =>
      match scan_once fuel' s with
      | Some (v, r) =>
          let r := skip_ws r in
          match expect "]" r with
          | Some r' => Some ([v], r')
          | None =>
              match expect "," r with
              | Some r' =>
                  match scan_items fuel' (skip_ws r') with
                  | Some (vs, r'') => Some (v :: vs, r'')
                  | None => None
                  end
              | None => None
              end
          end
      | None => None
      end
  end
(** the pairs of an object, from the opening quote of a key *)
with scan_members (fuel : nat) (s : string)
  : option (list (string * value) * string) :=
  match fuel with
  | O => None
  | S fuel' =>
      match expect dquote s with
      | Some r0 =>
          match scanstring r0 with
          | Some (key, r1) =>
              match expect ":" (skip_ws r1) with
              | Some r2 =>
                  match scan_once fuel' (skip_ws r2) with
                  | Some (v, r3) =>
                      let r3 := skip_ws r3 in
                      match expect "}" r3 with
                      | Some r4 => Some ([(key, v)], r4)
                      | None =>
                          match expect "," r3 with
                          | Some r4 =>
                              match scan_members fuel' (skip_ws r4) with
                              | Some (ps, r5) => Some ((key, v) :: ps, r5)
                              | None => None
                              end
                          | None => None
                          end
                      end
                  | None => None
                  end
              | None => None
              end
          | None => None
          end
      | None => None
      end
  end.

(** [JSONDecoder.decode]: leading white space, one value, trailing white
    space, and nothing else. *)
Definition decode (s : string) : option value :=
  match scan_once (2 * String.length s + 2) (skip_ws s) with
  | Some (v, rest) =>
      match skip_ws rest with
      | EmptyString => Some v
      | _ => None
      end
  | None => None
  end.

Definition loads (s : string) : outcome value :=
  match decode s with
  | Some v => Return v
  | None => Raise (Exception JSONDecodeError "Expecting value")
  end.

End PyJson.

#[export] Instance python_json : JsonModule := {|
  json_loads := PyJson.loads;
  json_dumps_indent2 := PyJson.dumps_indent2
|}.

(* ===================================================================== *)
(** * text_extractor.py *)
(* ===================================================================== *)

(** What [PaddleOCR.ocr] is given: the bytes of a PNG image or a path. *)
Inductive ocr_input : Type :=
  | OcrBytes (png : list Byte.byte)
  | OcrPath (path : string).

(** The collaborators of text extraction: PyMuPDF ([fitz]), PIL and
    PaddleOCR.  Each call returns or raises. *)
Class OcrStack : Type := {
  Page : Type;
  Pixmap : Type;
  Image : Type;
  Box : Type;
  Score : Type;
  (** [fitz.open(pdf_path)]: the document, as the sequence of its pages *)
  fitz_open : string -> outcome (list Page);
  (** [page.get_pixmap()] *)
  get_pixmap : Page -> outcome Pixmap;
  (** [Image.frombytes("RGB", [pix.width, pix.height], pix.samples)] *)
  Image_frombytes : Pixmap -> outcome Image;
  (** [img.save(buf, format='PNG')] followed by [buf.getvalue()] *)
  Image_save_png : Image -> outcome (list Byte.byte);
  (** [self.ocr.ocr(x, cls=True)]: [None], or for every image the list of
      its lines [[box, (text, score)]] *)
  paddle_ocr : ocr_input -> outcome (option (list (list (Box * (string * Score)))))
}.

Section TextExtractor.
Context `{OcrStack}.

Definition ocr_line : Type := (Box * (string * Score))%type.

(** [line[1][0]] *)
Definition line_text (line : ocr_line) : string := fst (snd line).

(** Truth value of an OCR result: [None] and the empty list are false. *)
Definition truthy (result : option (list (list ocr_line))) : bool :=
  match result with
  | None | Some [] => false
  | Some (_ :: _) => true
  end.

(** [pdf_document[page_num]] *)
Definition document_getitem (pdf_document : list Page) (page_num : nat)
  : outcome Page :=
  match nth_error pdf_document page_num with
  | Some page => Return page
  | None => Raise (Exception IndexError "page not in document")
  end.

(** [TextExtractor.convert_pdf_to_images] (lines 16-32): the pages are
    visited by number; any exception is logged and raised again.
    [pdf_document.close()] leaves no trace in the model. *)
Definition convert_pdf_to_images (pdf_path : string) : M (list Image) :=
  try_except
    (pdf_document <- lift (fitz_open pdf_path) ;;
     images <- for_each (seq 0 (length pdf_document)) []
                 (fun images page_num =>
                    page <- lift (document_getitem pdf_document page_num) ;;
                    pix <- lift (get_pixmap page) ;;
                    img_data <- lift (Image_frombytes pix) ;;
                    ret (images ++ [img_data])) ;;
     ret images)
    (fun e =>
       logger_error ("Error converting PDF to images: " +:+ exn_str e) ;;;
       raise e).

(** The two inner loops of the PDF branch: every line of every entry of
    [result] is appended to [text]. *)
Definition append_lines (text : list string) (result : list (list ocr_line))
  : list string :=
  fold_left (fun text res =>
               fold_left (fun text line => text ++ [line_text line]) res text)
            result text.

(** [TextExtractor.extract_text] (lines 34-63) *)
Definition extract_text (file_path : string) : M string :=
  try_except
    (found <- path_exists file_path ;;
     if negb found then
       raise (Exception FileNotFoundError ("File not found: " +:+ file_path))
     else if PyStr.endswith (PyStr.lower file_path) ".pdf" then
       images <- convert_pdf_to_images file_path ;;
       text <- for_each images []
                 (fun text img =>
                    img_byte_arr <- lift (Image_save_png img) ;;
                    result <- lift (paddle_ocr (OcrBytes img_byte_arr)) ;;
                    if truthy result
                    then ret (append_lines text (default [] result))
                    else ret text) ;;
       ret (PyStr.join PyStr.newline text)
     else
       result <- lift (paddle_ocr (OcrPath file_path)) ;;
       ret (if truthy result
            then PyStr.join PyStr.newline
                   (flat_map (fun res => map line_text res) (default [] result))
            else ""))
    (fun e =>
       logger_error ("Error extracting text: " +:+ exn_str e) ;;;
       raise e).

(** [TextExtractor.save_extracted_text] (lines 65-81) *)
Definition save_extracted_text (text original_file_path : string) : M string :=
  try_except
    (let output_path :=
       os_path.join
         (os_path.dirname original_file_path)
         ("extracted_"
          +:+ fst (os_path.splitext (os_path.basename original_file_path))
          +:+ ".txt") in
     write_text output_path text ;;;
     logger_info ("Extracted text saved to: " +:+ output_path) ;;;
     ret output_path)
    (fun e =>
       logger_error ("Error saving text: " +:+ exn_str e) ;;;
       raise e).

End TextExtractor.

(* ===================================================================== *)
(** * info_extractor.py *)
(* ===================================================================== *)

Record Message : Type := { role : string; content : string }.
(** The options of a call; the temperature [0.0] is the number zero. *)
Record ChatOptions : Type := { temperature : Z; num_predict : Z }.
Record ChatResponse : Type := { message : Message }.

(** The chat service: [ollama.chat(model=..., messages=..., options=...)]. *)
Class Ollama : Type := {
  ollama_chat : string -> list Message -> ChatOptions -> outcome ChatResponse
}.

(** The instructions of the prompt, line by line. *)
Definition prompt_instructions : list string :=
  [ "You are an expert resume parser. Extract the following information from this resume text:";
    "";
    "1. Full Name: The complete name of the individual";
    "2. Phone Number: Any contact phone number(s)";
    "3. Email Address: The email address used for professional contact";
    "4. Location: City, state, country or full address";
    "";
    "5. Tech Stack: IMPORTANT - Comprehensively extract ALL technical skills, programming languages, ";
    "   frameworks, libraries, tools, platforms, and technologies mentioned ANYWHERE in the resume.";
    "   Include skills from ALL sections including skills sections, project descriptions, work experience, ";
    "   education, certifications, etc. Be thorough and don't miss any technology mentions.";
    "   Include:";
    "   - Programming languages (Python, Java, JavaScript, etc.)";
    "   - Frameworks (React, Django, Spring, etc.)";
    "   - Databases (MySQL, MongoDB, PostgreSQL, etc.)";
    "   - Cloud platforms (AWS, Azure, GCP, etc.)";
    "   - Tools (Git, Docker, Kubernetes, etc.)";
    "   - Any other technical skills or technologies";
    "";
    "IMPORTANT: Your response must be ONLY a valid JSON object with these exact keys:";
    "{";
    "  " +:+ PyStr.quoted "full_name" +:+ ": " +:+ PyStr.quoted "Extracted full name" +:+ ",";
    "  " +:+ PyStr.quoted "phone_number" +:+ ": " +:+ PyStr.quoted "Extracted phone number" +:+ ",";
    "  " +:+ PyStr.quoted "email" +:+ ": " +:+ PyStr.quoted "Extracted email" +:+ ",";
    "  " +:+ PyStr.quoted "location" +:+ ": " +:+ PyStr.quoted "Extracted location" +:+ ",";
    "  " +:+ PyStr.quoted "tech_stack" +:+ ": [" +:+ PyStr.quoted "Skill 1" +:+ ", "
         +:+ PyStr.quoted "Skill 2" +:+ ", " +:+ PyStr.quoted "Skill 3" +:+ ", ...]";
    "}";
    "";
    "For tech_stack, include ALL technical skills found anywhere in the resume.";
    "Do not include any explanation, markdown formatting, or commentary outside of the JSON object.";
    "";
    "Resume text:" ].

(** The f-string: a line break, the instructions, the resume text, a line
    break. *)
Definition make_prompt (resume_text : string) : string :=
  PyStr.newline
  +:+ fold_right (fun line rest => line +:+ PyStr.newline +:+ rest) "" prompt_instructions
  +:+ resume_text +:+ PyStr.newline.

(** [obj.get(key, default)]: only a dict has the method. *)
Definition py_get (obj : value) (key : string) (default : value) : outcome value :=
  match obj with
  | PyDict d => Return (match dict_get d key with Some v => v | None => default end)
  | _ => Raise (Exception AttributeError "object has no attribute 'get'")
  end.

(** The record returned when extraction fails. *)
Definition default_record : dict :=
  [ ("full_name", PyNone); ("phone_number", PyNone); ("email", PyNone);
    ("location", PyNone); ("tech_stack", PyList []);
    ("error", PyStr "Extraction failed") ].

Section InfoExtractor.
Context `{Ollama} `{JsonModule}.

(** The body of the [try] of [extract_resume_info_with_qwen] (lines
    55-92): [Some result] when it reaches [return result], [None] when the
    test on the brace positions fails and control falls out of the [try]. *)
Definition extraction_attempt (prompt : string) : M (option dict) :=
  response <- lift (ollama_chat "qwen2.5:3b"
                      [ {| role := "user"; content := prompt |} ]
                      {| temperature := 0; num_predict := 1024 |}) ;;
  let model_response := content (message response) in
  let json_start := PyStr.find model_response "{" in
  let json_end := (PyStr.rfind model_response "}" + 1)%Z in
  if (json_start >=? 0)%Z && (json_end >? 0)%Z then
    let json_content := PyStr.slice model_response (Some json_start) (Some json_end) in
    extracted_info <- lift (json_loads json_content) ;;
    full_name <- lift (py_get extracted_info "full_name" PyNone) ;;
    phone_number <- lift (py_get extracted_info "phone_number" PyNone) ;;
    email <- lift (py_get extracted_info "email" PyNone) ;;
    location <- lift (py_get extracted_info "location" PyNone) ;;
    tech_stack <- lift (py_get extracted_info "tech_stack" (PyList [])) ;;
    let result :=
      [ ("full_name", full_name); ("phone_number", phone_number);
        ("email", email); ("location", location);
        ("tech_stack", tech_stack) ] in
    ret (Some result)
  else ret None.

(** The candidate JSON payload: what the attempt hands to [json.loads]
    for a given model response, [None] when the test on the positions
    fails and nothing is parsed. *)
Definition json_content_of (model_response : string) : option string :=
  let json_start := PyStr.find model_response "{" in
  let json_end := (PyStr.rfind model_response "}" + 1)%Z in
  if (json_start >=? 0)%Z && (json_end >? 0)%Z
  then Some (PyStr.slice model_response (Some json_start) (Some json_end))
  else None.

(** [extract_resume_info_with_qwen] (lines 6-105): the [try], its handler
    that prints the exception, and the default record for every way out
    other than [return result]. *)
Definition extract_resume_info_with_qwen (resume_text : string) : M dict :=
  let prompt := make_prompt resume_text in
  returned <- try_except
                (extraction_attempt prompt)
                (fun e =>
                   print ("Error during extraction: " +:+ exn_str e) ;;;
                   ret None) ;;
  match returned with
  | Some result => ret result
  | None => ret default_record
  end.

(** [process_resume_file] (lines 107-125) *)
Definition process_resume_file (file_path : string) : M dict :=
  try_except
    (text <- read_text file_path ;;
     extracted_info <- extract_resume_info_with_qwen text ;;
     ret extracted_info)
    (fun e => ret [ ("error", PyStr (exn_str e)) ]).

(** [fnmatch]: [*] stands for any run of characters, [?] for one. *)
Fixpoint fnmatch (pattern name : string) {struct pattern} : bool :=
  match pattern with
  | EmptyString => match name with EmptyString => true | _ => false end
  | String "*" pattern' =>
      (fix star (n : string) : bool :=
         fnmatch pattern' n
         || match n with
            | EmptyString => false
            | String _ n' => star n'
            end) name
  | String "?" pattern' =>
      match name with
      | EmptyString => false
      | String _ name' => fnmatch pattern' name'
      end
  | String c pattern' =>
      match name with
      | EmptyString => false
      | String d name' => Ascii.eqb c d && fnmatch pattern' name'
      end
  end.

(** [Path(directory_path).glob(pattern)]: the entries of the directory
    whose name matches, as path strings, in the order of the listing. *)
Definition Path_glob (directory_path pattern : string) : M (list string) :=
  fun w =>
    (Return (List.filter (fun p => String.eqb (os_path.dirname p) directory_path
                              && fnmatch pattern (os_path.basename p))
                    (map fst (map_to_list (w_fs w)))),
     w).

(** [file_path.name] *)
Definition Path_name (file_path : string) : string := os_path.basename file_path.

(** [process_all_resumes] (lines 127-145) *)
Definition process_all_resumes (directory_path : string) : M (list dict) :=
  paths <- Path_glob directory_path "*.txt" ;;
  results <- for_each paths []
               (fun results file_path =>
                  print ("Processing: " +:+ Path_name file_path) ;;;
                  extracted_info <- process_resume_file file_path ;;
                  let extracted_info :=
                    dict_set extracted_info "file_name" (PyStr (Path_name file_path)) in
                  ret (results ++ [extracted_info])) ;;
  ret results.

(** [save_results_to_json] (lines 147-157) *)
Definition save_results_to_json (results : value) (output_path : string) : M unit :=
  write_text output_path (json_dumps_indent2 results) ;;;
  print ("Results saved to " +:+ output_path).

(** Reading a results file back: [json.load] of the file (the reading
    side of the round trip; the program itself only writes). *)
Definition load_results_from_json (path : string) : M value :=
  text <- read_text path ;;
  lift (json_loads text).

End InfoExtractor.

(** ** The entry points *)

(** [TextExtractor()]: the constructor builds the OCR engine, which may
    fail; an extractor is the stack of collaborators its methods call. *)
Class TextExtractorClass : Type := {
  TextExtractor_init : outcome OcrStack
}.

(** The script of [text_extractor.py] (lines 83-94): every exception ends
    in one more error line, and the script ends normally. *)
Definition text_extractor_main `{TextExtractorClass} : M unit :=
  try_except
    (extractor <- lift TextExtractor_init ;;
     let resume_path := "C:/Users/harsh/Downloads/Aryan-Rajpurkar_resume.pdf" in
     print (PyStr.newline +:+ "Extracting text from resume...") ;;;
     extracted_text <- @extract_text extractor resume_path ;;
     output_file <- save_extracted_text extracted_text resume_path ;;
     print (PyStr.newline +:+ "Text extracted and saved to: " +:+ output_file))
    (fun e => logger_error ("Failed to extract text: " +:+ exn_str e)).

(** The script of [info_extractor.py] (lines 160-170). *)
Definition info_extractor_main `{Ollama} `{JsonModule} : M unit :=
  let resume_text_path :=
    "C:/Users/harsh/Downloads/extracted_Aryan-Rajpurkar_resume.txt" in
  found <- path_exists resume_text_path ;;
  if found then
    print ("Extracting information from " +:+ resume_text_path) ;;;
    info <- process_resume_file resume_text_path ;;
    print (json_dumps_indent2 (PyDict info)) ;;;
    save_results_to_json (PyDict info) "extracted_resume_info.json"
  else ret tt.


(* ===================================================================== *)
(** * Reading the specification *)
(* ===================================================================== *)

(** The character [c] occurs in [s] at index [i] and nowhere before. *)
Definition first_occurrence (c : ascii) (s : string) (i : nat) : Prop :=
  String.get i s = Some c /\ forall k, (k < i)%nat -> String.get k s <> Some c.

(** The character [c] occurs in [s] at index [j] and nowhere after. *)
Definition last_occurrence (c : ascii) (s : string) (j : nat) : Prop :=
  String.get j s = Some c /\ forall k, (j < k)%nat -> String.get k s <> Some c.

Definition absent (c : ascii) (s : string) : Prop :=
  forall k, String.get k s <> Some c.

(** The characters of [s] from index [i] through index [j], both included
    (nothing when [j] lies before [i]). *)
Definition between (s : string) (i j : nat) : string :=
  substring i (S j - i) s.

(** The index of the first and of the last occurrence of a character,
    computed from the front. *)
Fixpoint first_index (c : ascii) (s : string) : option nat :=
  match s with
  | EmptyString => None
  | String a s' => if Ascii.eqb c a then Some 0%nat else S <$> first_index c s'
  end.

Fixpoint last_index (c : ascii) (s : string) : option nat :=
  match s with
  | EmptyString => None
  | String a s' =>
      match last_index c s' with
      | Some j => Some (S j)
      | None => if Ascii.eqb c a then Some 0%nat else None
      end
  end.

(** The five recognized keys. *)
Definition recognized_keys : list string :=
  ["full_name"; "phone_number"; "email"; "location"; "tech_stack"].

(** The value a record gets for a recognized key from a parsed object:
    the object's value, or [null] (the empty list for [tech_stack]) when the
    key is absent. *)
Definition projected (d : dict) (key : string) : value :=
  match dict_get d key with
  | Some v => v
  | None => if String.eqb key "tech_stack" then PyList [] else PyNone
  end.

Definition has_key (d : dict) (key : string) : Prop := is_Some (dict_get d key).

(** A dict has no key twice, at any depth: the invariant of Python's dict. *)
Fixpoint well_formed (v : value) : Prop :=
  match v with
  | PyList items => (fix all (l : list value) : Prop :=
                       match l with
                       | [] => True
                       | x :: l' => well_formed x /\ all l'
                       end) items
  | PyDict items => NoDup (map fst items)
                    /\ (fix all (l : list (string * value)) : Prop :=
                          match l with
                          | [] => True
                          | (_, x) :: l' => well_formed x /\ all l'
                          end) items
  | _ => True
  end.

(** The plaintext files of a directory: the entries whose name ends in
    [.txt], in the order of the listing. *)
Definition txt_files (w : World) (directory_path : string) : list string :=
  List.filter (fun p => String.eqb (os_path.dirname p) directory_path
                   && PyStr.endswith (os_path.basename p) ".txt")
         (map fst (map_to_list (w_fs w))).

(** The world after a line was printed, and after a message was logged. *)
Definition printed (line : string) (w : World) : World := snd (print line w).
Definition logged (lvl : log_level) (msg : string) (w : World) : World :=
  snd (logger_log lvl msg w).

(** The call the program makes to the chat service. *)
Definition chat_call `{Ollama} (resume_text : string) : outcome ChatResponse :=
  ollama_chat "qwen2.5:3b"
    [ {| role := "user"; content := make_prompt resume_text |} ]
    {| temperature := 0; num_predict := 1024 |}.

(** The body of the loop of [process_all_resumes]. *)
Definition batch_step `{Ollama} `{JsonModule}
    (results : list dict) (file_path : string) : M (list dict) :=
  print ("Processing: " +:+ Path_name file_path) ;;;
  extracted_info <- process_resume_file file_path ;;
  let extracted_info :=
    dict_set extracted_info "file_name" (PyStr (Path_name file_path)) in
  ret (results ++ [extracted_info]).

(** Collaborator calls in sequence: the first exception ends the run. *)
Definition and_then {A B} (o : outcome A) (k : A -> outcome B) : outcome B :=
  match o with
  | Return a => k a
  | Raise e => Raise e
  end.

Fixpoint map_outcome {A B} (f : A -> outcome B) (xs : list A) : outcome (list B) :=
  match xs with
  | [] => Return []
  | x :: xs' => and_then (f x) (fun y =>
                and_then (map_outcome f xs') (fun ys => Return (y :: ys)))
  end.

Section TextExtractionSpec.
Context `{OcrStack}.

(** One page becomes one image. *)
Definition rasterize (page : Page) : outcome Image :=
  and_then (get_pixmap page) Image_frombytes.

(** OCR of one page image, on its own. *)
Definition ocr_image (img : Image)
  : outcome (option (list (list ocr_line))) :=
  and_then (Image_save_png img) (fun png => paddle_ocr (OcrBytes png)).

(** The recognized strings of one OCR result, in the order of the
    result; an empty result has none. *)
Definition region_texts (result : option (list (list ocr_line))) : list string :=
  match result with
  | Some entries => flat_map (fun res => map line_text res) entries
  | None => []
  end.

(** The path has the PDF extension, in any letter case. *)
Definition has_pdf_extension (file_path : string) : Prop :=
  exists stem e1 e2 e3,
    file_path = stem +:+ String "." (String e1 (String e2 (String e3 "")))
    /\ (e1 = "p" \/ e1 = "P")%char /\ (e2 = "d" \/ e2 = "D")%char
    /\ (e3 = "f" \/ e3 = "F")%char.

End TextExtractionSpec.

(** A string that is empty or ends with a slash. *)
Definition slash_closed (head : string) : Prop :=
  head = "" \/ exists h, head = h +:+ "/".

(** ** Notions for the JSON round trip *)

(** Induction on values that reaches the elements of lists and dicts. *)
Section value_ind'.
Variable P : value -> Prop.
Hypothesis HNone : P PyNone.
Hypothesis HBool : forall b, P (PyBool b).
Hypothesis HInt : forall n, P (PyInt n).
Hypothesis HStr : forall s, P (PyStr s).
Hypothesis HList : forall items, Forall P items -> P (PyList items).
Hypothesis HDict : forall items, Forall (fun kv => P (snd kv)) items -> P (PyDict items).

Fixpoint value_ind' (v : value) : P v :=
  match v with
  | PyNone => HNone
  | PyBool b => HBool b
  | PyInt n => HInt n
  | PyStr s => HStr s
  | PyList items =>
      HList items
        ((fix go (l : list value) : Forall P l :=
            match l with
            | [] => @List.Forall_nil _ _
            | x :: l' => @List.Forall_cons _ _ x l' (value_ind' x) (go l')
            end) items)
  | PyDict items =>
      HDict items
        ((fix go (l : list (string * value)) : Forall (fun kv => P (snd kv)) l :=
            match l with
            | [] => @List.Forall_nil _ _
            | (k, x) :: l' => @List.Forall_cons _ _ (k, x) l' (value_ind' x) (go l')
            end) items)
  end.
End value_ind'.

(** How deep the calls of the decoder nest on the encoding of a value. *)
Fixpoint depth (v : value) : nat :=
  match v with
  | PyList items =>
      S ((fix go (l : list value) : nat :=
            match l with
            | [] => 0
            | x :: l' => S (Nat.max (depth x) (go l'))
            end) items)
  | PyDict items =>
      S ((fix go (l : list (string * value)) : nat :=
            match l with
            | [] => 0
            | (_, x) :: l' => S (Nat.max (depth x) (go l'))
            end) items)
  | _ => 1
  end.

Fixpoint items_depth (l : list value) : nat :=
  match l with
  | [] => 0
  | x :: l' => S (Nat.max (depth x) (items_depth l'))
  end.

Fixpoint members_depth (l : list (string * value)) : nat :=
  match l with
  | [] => 0
  | (_, x) :: l' => S (Nat.max (depth x) (members_depth l'))
  end.

(** What may follow a value in the encoder's output: nothing, a comma or
    a line break. *)
Definition value_end (rest : string) : Prop :=
  match rest with
  | EmptyString => True
  | String c _ => c = ","%char \/ c = "010"%char
  end.

(** The characters a JSON value can start with. *)
Definition value_start (c : ascii) : Prop :=
  c = PyStr.dquote \/ c = "{"%char \/ c = "["%char \/ c = "n"%char
  \/ c = "t"%char \/ c = "f"%char \/ c = "-"%char \/ PyJson.is_digit c = true.

(** A text that starts like a value. *)
Definition starts_value (s : string) : Prop :=
  match s with
  | String c _ => value_start c
  | EmptyString => False
  end.

(** A value whose encoding, at any level and before any admissible
    continuation, is decoded to the value itself. *)
Definition decodes (v : value) : Prop :=
  forall level rest fuel,
    well_formed v -> depth v <= fuel -> value_end rest ->
    PyJson.scan_once fuel (PyJson.encode level v +:+ rest) = Some (v, rest).

(** One [key: value] pair as the encoder writes it. *)
Definition encode_member (level : nat) (kv : string * value) : string :=
  match kv with
  | (k, x) => PyJson.encode_basestring_ascii k +:+ ": " +:+ PyJson.encode (S level) x
  end.

(** A text that starts like a number. *)
Definition starts_number (s : string) : Prop :=
  match s with
  | String c _ => c = "-"%char \/ PyJson.is_digit c = true
  | EmptyString => False
  end.

(** The depth of a value is at most the length of its encoding. *)
Definition shallow (v : value) : Prop :=
  forall level, depth v <= String.length (PyJson.encode level v).

(** ** Sample collaborators and a sample world *)

(** A chat service that gives the same reply to every prompt. *)
Definition canned_ollama (reply : string) : Ollama :=
  {| ollama_chat := fun _ _ _ =>
       Return {| message := {| role := "assistant"; content := reply |} |} |}.

(** A chat service that is down. *)
Definition unreachable_ollama : Ollama :=
  {| ollama_chat := fun _ _ _ =>
       Raise (Exception ConnectionError "Failed to connect to Ollama") |}.

(** A small OCR stack: a page is its printed line, rasterizing keeps it,
    the PNG bytes are the bytes of the line, and recognition reads the line
    back; a path is recognized as [on_path] says. *)
Definition sample_ocr (on_path : string -> option (list (list (unit * (string * unit)))))
  : OcrStack :=
  {| Page := string; Pixmap := string; Image := string; Box := unit; Score := unit;
     fitz_open := fun _ => Return ["Jane Doe"; "Python, AWS"];
     get_pixmap := fun page => Return page;
     Image_frombytes := fun pix => Return pix;
     Image_save_png := fun img => Return (list_byte_of_string img);
     paddle_ocr := fun x =>
       match x with
       | OcrBytes png => Return (Some [[(tt, (string_of_list_byte png, tt))]])
       | OcrPath path => Return (on_path path)
       end |}.

(** The reply of the specification's example: one bare JSON object. *)
Definition jane_doe_reply : string :=
  "{" +:+ PyStr.quoted "full_name" +:+ ":" +:+ PyStr.quoted "Jane Doe" +:+ ","
  +:+ PyStr.quoted "phone_number" +:+ ":null,"
  +:+ PyStr.quoted "email" +:+ ":" +:+ PyStr.quoted "jane@x.com" +:+ ","
  +:+ PyStr.quoted "location" +:+ ":null,"
  +:+ PyStr.quoted "tech_stack" +:+ ":[" +:+ PyStr.quoted "Python" +:+ ","
  +:+ PyStr.quoted "AWS" +:+ "]}".

Definition jane_doe_record : dict :=
  [ ("full_name", PyStr "Jane Doe"); ("phone_number", PyNone);
    ("email", PyStr "jane@x.com"); ("location", PyNone);
    ("tech_stack", PyList [PyStr "Python"; PyStr "AWS"]) ].

Definition sample_world : World :=
  mkWorld (list_to_map [ ("cv/resume.pdf", BinaryFile); ("cv/scan.png", BinaryFile);
                         ("cv/a.txt", TextFile "Jane Doe, jane@x.com, Skills: Python, AWS");
                         ("cv/b.txt", BinaryFile); ("cv", Directory) ])
          ∅ [] [].

(** ** Vocabulary for what a computation leaves alone *)

(** From [w] to [w'] nothing happened but printing: the files, the
    write protection and the log are the same, the output grew. *)
Definition only_printed (w w' : World) : Prop :=
  w_fs w' = w_fs w /\ w_readonly w' = w_readonly w /\ w_log w' = w_log w
  /\ exists lines, w_stdout w' = w_stdout w ++ lines.

(** From [w] to [w'] nothing happened but logging. *)
Definition only_logged (w w' : World) : Prop :=
  w_fs w' = w_fs w /\ w_readonly w' = w_readonly w /\ w_stdout w' = w_stdout w
  /\ exists entries, w_log w' = w_log w ++ entries.

(** The record [process_resume_file] gives for a path in a world. *)
Definition record_for `{Ollama} `{JsonModule} (w : World) (file_path : string) : dict :=
  match fst (process_resume_file file_path w) with
  | Return record => record
  | Raise _ => []
  end.

(** The record of a file as the batch returns it: with the file's name. *)
Definition tagged_record `{Ollama} `{JsonModule} (w : World) (file_path : string) : dict :=
  dict_set (record_for w file_path) "file_name" (PyStr (Path_name file_path)).

(** The pages of a document, rasterized in order: the first failure ends
    the run. *)
Definition rasterize_document `{OcrStack} (pdf_path : string) : outcome (list Image) :=
  and_then (fitz_open pdf_path) (map_outcome rasterize).

(** A world in which one output path is write protected. *)
Definition locked_world : World :=
  mkWorld (w_fs sample_world)
          {[ "cv/results.json"; "cv/extracted_resume.txt" ]} [] [].

(** An OCR stack whose document cannot be opened, and one whose engine
    fails. *)
Definition broken_pdf_ocr : OcrStack :=
  {| Page := string; Pixmap := string; Image := string; Box := unit; Score := unit;
     fitz_open := fun _ => Raise (Exception RuntimeError "cannot open broken document");
     get_pixmap := fun page => Return page;
     Image_frombytes := fun pix => Return pix;
     Image_save_png := fun img => Return (list_byte_of_string img);
     paddle_ocr := fun _ => Raise (Exception RuntimeError "OCR engine failure") |}.

Definition empty_pdf_ocr : OcrStack :=
  {| Page := string; Pixmap := string; Image := string; Box := unit; Score := unit;
     fitz_open := fun _ => Return [];
     get_pixmap := fun page => Return page;
     Image_frombytes := fun pix => Return pix;
     Image_save_png := fun img => Return (list_byte_of_string img);
     paddle_ocr := fun _ => Return None |}.

(** A world that holds the input of the script of [info_extractor.py]. *)
Definition downloads_world : World :=
  mkWorld {[ "C:/Users/harsh/Downloads/extracted_Aryan-Rajpurkar_resume.txt"
             := TextFile "Jane Doe, jane@x.com, Skills: Python, AWS" ]}
          ∅ [] [].

(* ===================================================================== *)
(** * Properties *)
(* ===================================================================== *)

(** ** Strings *)

Lemma prefix_single (c : ascii) (s : string) :
  String.prefix (String c "") s =
  match s with String a _ => Ascii.eqb c a | EmptyString => false end.
Proof.
  destruct s as [|a s]; simpl; [reflexivity|].
  destruct (Ascii.eqb_spec c a) as [->|Hne].
  - destruct (ascii_dec a a); [|congruence]. destruct s; reflexivity.
  - destruct (ascii_dec c a); [congruence|reflexivity].
Qed.

Lemma find_from_char (c : ascii) (s : string) (o : Z) :
  PyStr.find_from (String c "") s o =
  match first_index c s with
  | Some i => (o + Z.of_nat i)%Z
  | None => (-1)%Z
  end.
Proof.
  revert o. induction s as [|a s IH]; intros o; cbn [PyStr.find_from first_index].
  - reflexivity.
  - rewrite prefix_single. destruct (Ascii.eqb c a).
    + lia.
    + rewrite IH. destruct (first_index c s); simpl; lia.
Qed.

Lemma rfind_from_char (c : ascii) (s : string) (o last : Z) :
  PyStr.rfind_from (String c "") s o last =
  match last_index c s with
  | Some j => (o + Z.of_nat j)%Z
  | None => last
  end.
Proof.
  revert o last. induction s as [|a s IH]; intros o last;
    cbn [PyStr.rfind_from last_index].
  - reflexivity.
  - rewrite prefix_single, IH. destruct (last_index c s).
    + lia.
    + destruct (Ascii.eqb c a); [lia|reflexivity].
Qed.

Lemma first_index_Some (c : ascii) (s : string) (i : nat) :
  first_index c s = Some i <-> first_occurrence c s i.
Proof.
  revert i. induction s as [|a s IH]; intros i; simpl.
  - split; [discriminate|]. intros [Hg _]. destruct i; discriminate.
  - destruct (Ascii.eqb_spec c a) as [->|Hne].
    + split.
      * intros [= <-]. split; [reflexivity|]. intros k Hk; lia.
      * intros [Hg Hb]. destruct i as [|i]; [reflexivity|].
        exfalso. apply (Hb 0%nat); [lia|reflexivity].
    + destruct (first_index c s) as [i'|] eqn:Hf; simpl.
      * split.
        -- intros [= <-]. destruct (proj1 (IH i') eq_refl) as [Hg Hb].
           split; [exact Hg|]. intros [|k] Hk; simpl; [congruence|].
           apply Hb; lia.
        -- intros [Hg Hb]. destruct i as [|i]; simpl in Hg; [congruence|].
           assert (Some i' = Some i) as [= ->]; [|reflexivity].
           apply IH. split; [exact Hg|].
           intros k Hk. apply (Hb (S k)). lia.
      * split; [discriminate|]. intros [Hg Hb].
        destruct i as [|i]; simpl in Hg; [congruence|].
        assert (None = Some i) by (apply IH; split;
          [exact Hg|intros k Hk; apply (Hb (S k)); lia]).
        discriminate.
Qed.

Lemma first_index_None (c : ascii) (s : string) :
  first_index c s = None <-> absent c s.
Proof.
  induction s as [|a s IH]; simpl.
  - split; [|reflexivity]. intros _ [|k]; discriminate.
  - destruct (Ascii.eqb_spec c a) as [->|Hne].
    + split; [discriminate|]. intros Ha. exfalso. apply (Ha 0%nat). reflexivity.
    + destruct (first_index c s) as [i'|]; simpl.
      * split; [discriminate|]. intros Ha.
        assert (Some i' = None) by (apply IH; intros k; apply (Ha (S k))).
        discriminate.
      * split; [|reflexivity]. intros _ [|k]; simpl; [congruence|].
        apply IH. reflexivity.
Qed.

Lemma last_index_None (c : ascii) (s : string) :
  last_index c s = None <-> absent c s.
Proof.
  induction s as [|a s IH]; simpl.
  - split; [|reflexivity]. intros _ [|k]; discriminate.
  - destruct (last_index c s) as [j|].
    + split; [discriminate|]. intros Ha.
      assert (Some j = None) by (apply IH; intros k; apply (Ha (S k))).
      discriminate.
    + destruct (Ascii.eqb_spec c a) as [->|Hne].
      * split; [discriminate|]. intros Ha. exfalso. apply (Ha 0%nat). reflexivity.
      * split; [|reflexivity]. intros _ [|k]; simpl; [congruence|].
        apply IH. reflexivity.
Qed.

Lemma last_index_Some (c : ascii) (s : string) (j : nat) :
  last_index c s = Some j <-> last_occurrence c s j.
Proof.
  revert j. induction s as [|a s IH]; intros j; simpl.
  - split; [discriminate|]. intros [Hg _]. destruct j; discriminate.
  - destruct (last_index c s) as [j'|] eqn:Hl.
    + split.
      * intros [= <-]. destruct (proj1 (IH j') eq_refl) as [Hg Hb].
        split; [exact Hg|]. intros [|k] Hk; [lia|]. simpl. apply Hb. lia.
      * intros [Hg Hb]. destruct j as [|j].
        -- exfalso. destruct (proj1 (IH j') eq_refl) as [Hg' _].
           apply (Hb (S j')); [lia|exact Hg'].
        -- simpl in Hg. assert (Some j' = Some j) as [= ->]; [|reflexivity].
           apply IH. split; [exact Hg|].
           intros k Hk. apply (Hb (S k)). lia.
    + apply last_index_None in Hl.
      destruct (Ascii.eqb_spec c a) as [->|Hne].
      * split.
        -- intros [= <-]. split; [reflexivity|].
           intros [|k] Hk; [lia|]. simpl. apply Hl.
        -- intros [Hg Hb]. destruct j as [|j]; [reflexivity|].
           simpl in Hg. exfalso. exact (Hl j Hg).
      * split; [discriminate|]. intros [Hg Hb].
        destruct j as [|j]; simpl in Hg; [congruence|].
        exfalso. exact (Hl j Hg).
Qed.

Lemma first_occurrence_unique c s i i' :
  first_occurrence c s i -> first_occurrence c s i' -> i = i'.
Proof.
  intros H1 H2. apply first_index_Some in H1, H2. congruence.
Qed.

Lemma last_occurrence_unique c s j j' :
  last_occurrence c s j -> last_occurrence c s j' -> j = j'.
Proof.
  intros H1 H2. apply last_index_Some in H1, H2. congruence.
Qed.

Lemma get_lt_length (s : string) (k : nat) (c : ascii) :
  String.get k s = Some c -> (k < String.length s)%nat.
Proof.
  revert k. induction s as [|a s IH]; intros [|k]; simpl; try discriminate.
  - lia.
  - intros Hg. apply IH in Hg. lia.
Qed.

(** The slice the program takes, for the positions [find] and [rfind]
    report, is the inclusive range between the two occurrences. *)
Lemma slice_between (s : string) (i j : nat) :
  (i < String.length s)%nat -> (j < String.length s)%nat ->
  PyStr.slice s (Some (Z.of_nat i)) (Some (Z.of_nat j + 1)%Z) = between s i j.
Proof.
  intros Hi Hj. unfold PyStr.slice, between, PyStr.clamp, PyStr.len.
  destruct (Z.ltb_spec (Z.of_nat i) 0); [lia|].
  destruct (Z.ltb_spec (Z.of_nat j + 1) 0); [lia|].
  rewrite !Z.min_l by lia. rewrite Nat2Z.id.
  f_equal. lia.
Qed.

(** ** Appending and cutting strings *)

Lemma str_app_cons (c : ascii) (a b : string) : String c a +:+ b = String c (a +:+ b).
Proof. reflexivity. Qed.

Lemma str_app_nil_l (s : string) : "" +:+ s = s.
Proof. reflexivity. Qed.

Lemma str_app_nil_r (s : string) : s +:+ "" = s.
Proof. induction s as [|c s IH]; [reflexivity|]. rewrite str_app_cons, IH. reflexivity. Qed.

Lemma str_app_assoc (a b c : string) : (a +:+ b) +:+ c = a +:+ (b +:+ c).
Proof.
  induction a as [|x a IH]; [reflexivity|].
  rewrite !str_app_cons, IH. reflexivity.
Qed.

Lemma str_length_app (a b : string) :
  String.length (a +:+ b) = (String.length a + String.length b)%nat.
Proof.
  induction a as [|x a IH]; [reflexivity|].
  rewrite str_app_cons. simpl. rewrite IH. reflexivity.
Qed.

Lemma substring_all (s : string) : substring 0 (String.length s) s = s.
Proof. induction s as [|c s IH]; [reflexivity|]. simpl. rewrite IH. reflexivity. Qed.

Lemma substring_zero_len (n : nat) (s : string) : substring n 0 s = "".
Proof.
  revert n. induction s as [|c s IH]; intros [|n]; simpl; auto.
Qed.

Lemma substring_app_skip (pre s : string) (k m : nat) :
  substring (String.length pre + k) m (pre +:+ s) = substring k m s.
Proof.
  induction pre as [|c pre IH]; [reflexivity|].
  rewrite str_app_cons. simpl. exact IH.
Qed.

Lemma substring_app_take (pre s : string) :
  substring 0 (String.length pre) (pre +:+ s) = pre.
Proof.
  induction pre as [|c pre IH].
  - simpl. apply substring_zero_len.
  - rewrite str_app_cons. simpl. rewrite IH. reflexivity.
Qed.

Lemma substring_split (s : string) (k : nat) :
  (k <= String.length s)%nat ->
  s = substring 0 k s +:+ substring k (String.length s - k) s.
Proof.
  revert k. induction s as [|c s IH]; intros [|k] Hk; simpl in *.
  - reflexivity.
  - lia.
  - rewrite str_app_nil_l, substring_all. reflexivity.
  - rewrite str_app_cons. f_equal. apply IH. lia.
Qed.

Lemma substring_length (s : string) (n m : nat) :
  String.length (substring n m s) = Nat.min m (String.length s - n).
Proof.
  revert n m. induction s as [|c s IH]; intros [|n] [|m]; simpl; auto.
  rewrite IH. lia.
Qed.

Lemma endswith_suffix (s suffix : string) :
  PyStr.endswith s suffix = true <-> exists pre, s = pre +:+ suffix.
Proof.
  unfold PyStr.endswith. rewrite andb_true_iff, Nat.leb_le, String.eqb_eq. split.
  - intros [Hlen Hsub].
    exists (substring 0 (String.length s - String.length suffix) s).
    pose proof (substring_split s (String.length s - String.length suffix)) as Hsp.
    replace (String.length s - (String.length s - String.length suffix))%nat
      with (String.length suffix) in Hsp by lia.
    rewrite Hsub in Hsp. apply Hsp. lia.
  - intros [pre ->]. rewrite str_length_app. split; [lia|].
    replace (String.length pre + String.length suffix - String.length suffix)%nat
      with (String.length pre + 0)%nat by lia.
    rewrite substring_app_skip. apply substring_all.
Qed.

Lemma fnmatch_star_txt (name : string) :
  fnmatch "*.txt" name = true <-> exists pre, name = pre +:+ ".txt".
Proof.
  assert (Hlit : forall n, fnmatch ".txt" n = true <-> n = ".txt").
  { intros n. split; [|intros ->; reflexivity].
    destruct n as [|a1 [|a2 [|a3 [|a4 [|a5 n]]]]]; cbn [fnmatch];
      try discriminate;
      rewrite ?andb_true_iff, ?Ascii.eqb_eq;
      try (intros; repeat match goal with H : _ /\ _ |- _ => destruct H end;
           discriminate).
    intros (<- & <- & <- & <- & _). reflexivity. }
  change (fnmatch "*.txt" name)
    with ((fix star (n : string) : bool :=
             fnmatch ".txt" n
             || match n with EmptyString => false | String _ n' => star n' end) name).
  induction name as [|a name IH].
  - rewrite orb_false_r, Hlit. split; [discriminate|].
    intros [[|c pre] Hp]; discriminate.
  - rewrite orb_true_iff, Hlit, IH. split.
    + intros [->|[pre ->]]; [exists ""; reflexivity|].
      exists (String a pre). reflexivity.
    + intros [[|c pre] Hp].
      * left. exact Hp.
      * right. exists pre. rewrite str_app_cons in Hp. congruence.
Qed.

Lemma fnmatch_txt_endswith (name : string) :
  fnmatch "*.txt" name = PyStr.endswith name ".txt".
Proof.
  apply eq_true_iff_eq. rewrite fnmatch_star_txt, endswith_suffix. reflexivity.
Qed.

(** ** Dicts *)

Lemma dict_get_tabulate (f : string -> value) (keys : list string) (key : string) :
  dict_get (map (fun k => (k, f k)) keys) key
  = if in_dec string_dec key keys then Some (f key) else None.
Proof.
  induction keys as [|k keys IH]; simpl.
  - reflexivity.
  - destruct (String.eqb_spec k key) as [->|Hne].
    + destruct (string_dec key key); [reflexivity|congruence].
    + rewrite IH. destruct (string_dec k key); [congruence|].
      destruct (in_dec string_dec key keys); reflexivity.
Qed.

Lemma dict_get_set_eq (d : dict) (key : string) (v : value) :
  dict_get (dict_set d key v) key = Some v.
Proof.
  induction d as [|[k x] d IH]; simpl.
  - rewrite String.eqb_refl. reflexivity.
  - destruct (String.eqb k key) eqn:Hk; simpl; rewrite Hk; [reflexivity|exact IH].
Qed.

Lemma dict_get_set_ne (d : dict) (key key' : string) (v : value) :
  key <> key' -> dict_get (dict_set d key v) key' = dict_get d key'.
Proof.
  intros Hne. induction d as [|[k x] d IH]; simpl.
  - destruct (String.eqb_spec key key'); [contradiction|reflexivity].
  - destruct (String.eqb_spec k key) as [->|Hk]; simpl.
    + destruct (String.eqb_spec key key'); [contradiction|reflexivity].
    + rewrite IH. reflexivity.
Qed.

(** ** The extraction of one resume *)

Section InfoExtractorFacts.
Context `{Ollama} `{JsonModule}.

Lemma json_content_of_spec (s : string) :
  json_content_of s =
  match first_index "{" s, last_index "}" s with
  | Some i, Some j => Some (between s i j)
  | _, _ => None
  end.
Proof.
  unfold json_content_of, PyStr.find, PyStr.rfind.
  rewrite find_from_char, rfind_from_char.
  destruct (first_index "{" s) as [i|] eqn:Hi;
    destruct (last_index "}" s) as [j|] eqn:Hj; simpl.
  - destruct (Z.geb_spec (0 + Z.of_nat i) 0); [|lia].
    destruct (Z.gtb_spec (0 + Z.of_nat j + 1) 0); [|lia].
    simpl. f_equal.
    apply first_index_Some in Hi as [Hi _]. apply get_lt_length in Hi.
    apply last_index_Some in Hj as [Hj _]. apply get_lt_length in Hj.
    rewrite !Z.add_0_l. apply slice_between; assumption.
  - destruct (Z.geb_spec (0 + Z.of_nat i) 0); reflexivity.
  - reflexivity.
  - reflexivity.
Qed.

(** The function, case by case: what it returns and what it prints. *)
Lemma extract_resume_info_with_qwen_cases (resume_text : string) (w : World) :
  extract_resume_info_with_qwen resume_text w =
  match chat_call resume_text with
  | Raise e =>
      (Return default_record, printed ("Error during extraction: " +:+ exn_str e) w)
  | Return response =>
      match json_content_of (content (message response)) with
      | None => (Return default_record, w)
      | Some json_content =>
          match json_loads json_content with
          | Raise e =>
              (Return default_record,
               printed ("Error during extraction: " +:+ exn_str e) w)
          | Return (PyDict d) =>
              (Return (map (fun key => (key, projected d key)) recognized_keys), w)
          | Return _ =>
              (Return default_record,
               printed "Error during extraction: object has no attribute 'get'" w)
          end
      end
  end.
Proof.
  unfold extract_resume_info_with_qwen, extraction_attempt, chat_call,
    json_content_of, bind, try_except, lift, ret, printed.
  destruct (ollama_chat _ _ _) as [response|e]; [|reflexivity].
  cbv zeta.
  destruct ((PyStr.find (content (message response)) "{" >=? 0)%Z
            && (PyStr.rfind (content (message response)) "}" + 1 >? 0)%Z);
    [|reflexivity].
  destruct (json_loads _) as [[ | | | | |d]|e]; reflexivity.
Qed.

Lemma between_get (s : string) (i j k : nat) :
  String.get k (between s i j) =
  if (i + k <=? j)%nat then String.get (i + k) s else None.
Proof.
  unfold between. destruct (Nat.leb_spec (i + k) j).
  - rewrite substring_correct1 by lia. f_equal. lia.
  - apply substring_correct2. lia.
Qed.

Lemma json_content_of_between (s : string) (i j : nat) :
  first_occurrence "{" s i -> last_occurrence "}" s j ->
  json_content_of s = Some (between s i j).
Proof.
  intros Hi Hj. rewrite json_content_of_spec.
  apply first_index_Some in Hi. apply last_index_Some in Hj.
  rewrite Hi, Hj. reflexivity.
Qed.

Lemma json_content_of_absent (s : string) :
  absent "{" s \/ absent "}" s -> json_content_of s = None.
Proof.
  intros [Ha|Ha]; rewrite json_content_of_spec.
  - apply first_index_None in Ha. rewrite Ha. reflexivity.
  - apply last_index_None in Ha. rewrite Ha.
    destruct (first_index "{" s); reflexivity.
Qed.

Lemma printed_fs (line : string) (w : World) : w_fs (printed line w) = w_fs w.
Proof. reflexivity. Qed.

(** Whatever the chat service and the parser do, the function returns a
    record that has the five recognized keys, and leaves the files alone. *)
Lemma extract_resume_info_with_qwen_total (resume_text : string) (w : World) :
  exists result w',
    extract_resume_info_with_qwen resume_text w = (Return result, w')
    /\ w_fs w' = w_fs w
    /\ Forall (has_key result) recognized_keys
    /\ dict_get result "file_name" = None.
Proof.
  rewrite extract_resume_info_with_qwen_cases.
  assert (Hdef : Forall (has_key default_record) recognized_keys).
  { repeat constructor; eexists; reflexivity. }
  assert (Hout : forall line, exists result w',
             (Return default_record, printed line w) = (Return result, w')
             /\ w_fs w' = w_fs w
             /\ Forall (has_key result) recognized_keys
             /\ dict_get result "file_name" = None).
  { intros line. exists default_record, (printed line w). auto. }
  destruct (chat_call resume_text) as [response|e]; [|apply Hout].
  destruct (json_content_of _) as [json_content|].
  2: { exists default_record, w. auto. }
  destruct (json_loads json_content) as [[ | | | | |d]|e]; try apply Hout.
  eexists _, w. split; [reflexivity|]. split; [reflexivity|].
  split; [|reflexivity].
  repeat constructor; eexists; reflexivity.
Qed.

(** C2. A response in which no opening brace or no closing brace occurs,
    or whose text from the first opening brace through the last closing
    brace [json.loads] rejects, makes [extract_resume_info_with_qwen]
    return exactly the default record (all four scalars null, an empty
    tech stack, the marker "Extraction failed"); the call returns, it
    does not raise, and no file changes. *)
Theorem unparseable_response_gives_default_record
    (resume_text : string) (w : World) (response : ChatResponse) :
  chat_call resume_text = Return response ->
  (absent "{" (content (message response))
   \/ absent "}" (content (message response))
   \/ exists i j e,
        first_occurrence "{" (content (message response)) i
        /\ last_occurrence "}" (content (message response)) j
        /\ json_loads (between (content (message response)) i j) = Raise e) ->
  exists w',
    extract_resume_info_with_qwen resume_text w = (Return default_record, w')
    /\ w_fs w' = w_fs w.
Proof.
  intros Hchat Hbad. rewrite extract_resume_info_with_qwen_cases, Hchat.
  destruct Hbad as [Ha|[Ha|(i & j & e & Hi & Hj & He)]].
  - rewrite json_content_of_absent by (left; exact Ha). eauto.
  - rewrite json_content_of_absent by (right; exact Ha). eauto.
  - rewrite (json_content_of_between _ i j Hi Hj), He.
    eexists; split; [reflexivity|apply printed_fs].
Qed.

(** C3. When the response has an opening and a closing brace, the text
    given to [json.loads] consists of the characters of the response from
    the index of the first opening brace through the index of the last
    closing brace, both included, and the outcome of the function is
    decided by parsing that text. *)
Theorem json_payload_is_first_brace_through_last_brace
    (resume_text : string) (w : World) (response : ChatResponse) (i j : nat) :
  chat_call resume_text = Return response ->
  first_occurrence "{" (content (message response)) i ->
  last_occurrence "}" (content (message response)) j ->
  exists json_content,
    json_content_of (content (message response)) = Some json_content
    /\ (forall k, String.get k json_content =
                  if (i + k <=? j)%nat
                  then String.get (i + k) (content (message response))
                  else None)
    /\ extract_resume_info_with_qwen resume_text w =
       match json_loads json_content with
       | Return (PyDict d) =>
           (Return (map (fun key => (key, projected d key)) recognized_keys), w)
       | Return _ =>
           (Return default_record,
            printed "Error during extraction: object has no attribute 'get'" w)
       | Raise e =>
           (Return default_record,
            printed ("Error during extraction: " +:+ exn_str e) w)
       end.
Proof.
  intros Hchat Hi Hj. exists (between (content (message response)) i j).
  split; [apply json_content_of_between; assumption|].
  split; [intros k; apply between_get|].
  rewrite extract_resume_info_with_qwen_cases, Hchat,
    (json_content_of_between _ i j Hi Hj).
  destruct (json_loads _) as [[ | | | | |d]|e]; reflexivity.
Qed.

(** C4. When the text between the braces parses to an object, the record
    returned has exactly the five recognized keys; [full_name],
    [phone_number], [email] and [location] carry the object's value or
    null when the object lacks the key, [tech_stack] carries the object's
    value or the empty list, and no other key of the object survives. *)
Theorem parsed_object_is_projected_onto_recognized_keys
    (resume_text : string) (w : World) (response : ChatResponse)
    (i j : nat) (d : dict) :
  chat_call resume_text = Return response ->
  first_occurrence "{" (content (message response)) i ->
  last_occurrence "}" (content (message response)) j ->
  json_loads (between (content (message response)) i j) = Return (PyDict d) ->
  exists result,
    extract_resume_info_with_qwen resume_text w = (Return result, w)
    /\ dict_keys result = recognized_keys
    /\ (forall key, In key ["full_name"; "phone_number"; "email"; "location"] ->
          dict_get result key = Some (default PyNone (dict_get d key)))
    /\ dict_get result "tech_stack"
       = Some (default (PyList []) (dict_get d "tech_stack"))
    /\ (forall key, ~ In key recognized_keys -> dict_get result key = None).
Proof.
  intros Hchat Hi Hj Hd.
  rewrite extract_resume_info_with_qwen_cases, Hchat,
    (json_content_of_between _ i j Hi Hj), Hd.
  eexists; split; [reflexivity|]. split; [unfold dict_keys; rewrite map_map; apply map_id|].
  split; [|split].
  - intros key Hk. rewrite dict_get_tabulate.
    destruct (in_dec _ _ _) as [_|Hn].
    + f_equal. unfold projected.
      destruct (dict_get d key); [reflexivity|].
      simpl in Hk. destruct Hk as [<-|[<-|[<-|[<-|[]]]]]; reflexivity.
    + exfalso. apply Hn. simpl in *. tauto.
  - rewrite dict_get_tabulate. reflexivity.
  - intros key Hk. rewrite dict_get_tabulate.
    destruct (in_dec _ _ _); [contradiction|reflexivity].
Qed.

(** Whenever the file cannot be read as text, the record returned holds
    the message of the exception under [error] and nothing else. *)
Lemma unreadable_file_gives_bare_error_record (file_path : string) (w : World) :
  (forall text, w_fs w !! file_path <> Some (TextFile text)) ->
  exists msg,
    process_resume_file file_path w = (Return [("error", PyStr msg)], w).
Proof.
  intros Hno. unfold process_resume_file, try_except, bind, read_text, ret.
  destruct (w_fs w !! file_path) as [[| text |]|]; eauto.
  exfalso. apply (Hno text). reflexivity.
Qed.

(** C1 (the file-read failure). A path that names no file makes
    [process_resume_file] return a record whose only key is [error]: the
    five recognized keys are missing. *)
Theorem file_read_failure_record_has_only_error_key :
  let w := mkWorld ∅ ∅ [] [] in
  process_resume_file "resume.txt" w
  = (Return [("error", PyStr "[Errno 2] No such file or directory: 'resume.txt'")], w)
  /\ forall result w',
       process_resume_file "resume.txt" w = (Return result, w') ->
       dict_keys result = ["error"]
       /\ Forall (fun key => dict_get result key = None) recognized_keys.
Proof.
  split; [reflexivity|].
  intros result w' Hr. cbv in Hr. injection Hr as <- <-.
  split; [reflexivity|]. repeat constructor.
Qed.

(** ** The batch *)

(** [process_resume_file] returns a record whatever happens: a failure to
    read the file or to extract is turned into a record. *)
Lemma process_resume_file_total (file_path : string) (w : World) :
  exists result w',
    process_resume_file file_path w = (Return result, w')
    /\ w_fs w' = w_fs w
    /\ dict_get result "file_name" = None.
Proof.
  unfold process_resume_file, try_except, bind, read_text, ret.
  destruct (w_fs w !! file_path) as [[| text |]|];
    try (eexists _, w; split; [reflexivity|split; reflexivity]).
  destruct (extract_resume_info_with_qwen_total text w)
    as (result & w' & -> & Hfs & _ & Hname).
  exists result, w'. auto.
Qed.

Lemma batch_loop (paths : list string) (results : list dict) (w : World) :
  exists records w',
    for_each paths results batch_step w = (Return (results ++ records), w')
    /\ w_fs w' = w_fs w
    /\ map (fun r => dict_get r "file_name") records
       = map (fun p => Some (PyStr (os_path.basename p))) paths.
Proof.
  revert results w. induction paths as [|p paths IH]; intros results w.
  - exists [], w. simpl. rewrite app_nil_r. auto.
  - cbn [for_each]. unfold bind at 1. unfold batch_step at 1.
    unfold bind at 1. cbn [print].
    set (w1 := mkWorld _ _ _ _).
    unfold bind at 1.
    destruct (process_resume_file_total p w1) as (r & w2 & -> & Hfs2 & _).
    cbn [ret].
    destruct (IH (results ++ [dict_set r "file_name" (PyStr (Path_name p))]) w2)
      as (records & w' & -> & Hfs & Hnames).
    exists (dict_set r "file_name" (PyStr (Path_name p)) :: records), w'.
    split; [rewrite <- app_assoc; reflexivity|].
    split; [rewrite Hfs, Hfs2; reflexivity|].
    cbn [map]. rewrite dict_get_set_eq, Hnames. reflexivity.
Qed.

Lemma Path_glob_txt (directory_path : string) (w : World) :
  Path_glob directory_path "*.txt" w = (Return (txt_files w directory_path), w).
Proof.
  unfold Path_glob, txt_files. do 2 f_equal.
  apply filter_ext. intros p. rewrite fnmatch_txt_endswith. reflexivity.
Qed.


End InfoExtractorFacts.

(** ** Text extraction *)

Section TextExtractorFacts.
Context `{OcrStack}.

Lemma append_lines_flat (text : list string) (entries : list (list ocr_line)) :
  append_lines text entries
  = text ++ flat_map (fun res => map line_text res) entries.
Proof.
  unfold append_lines. revert text.
  induction entries as [|res entries IH]; intros text; simpl.
  - rewrite app_nil_r. reflexivity.
  - rewrite IH, app_assoc. f_equal.
    clear. revert text. induction res as [|line res IH]; intros text; simpl.
    + rewrite app_nil_r. reflexivity.
    + rewrite IH, <- app_assoc. reflexivity.
Qed.

(** The loop over the page numbers visits the pages in order. *)
Lemma rasterize_loop (done rest : list Page) (images imgs : list Image) (w : World) :
  map_outcome rasterize rest = Return imgs ->
  for_each (seq (length done) (length rest)) images
    (fun images page_num =>
       page <- lift (document_getitem (done ++ rest) page_num) ;;
       pix <- lift (get_pixmap page) ;;
       img_data <- lift (Image_frombytes pix) ;;
       ret (images ++ [img_data])) w
  = (Return (images ++ imgs), w).
Proof.
  revert done images imgs. induction rest as [|page rest IH];
    intros done images imgs Hr; simpl in Hr.
  - injection Hr as <-. simpl. rewrite app_nil_r. reflexivity.
  - unfold rasterize at 1 in Hr. unfold and_then in Hr.
    destruct (get_pixmap page) as [pix|e] eqn:Hpix; [|discriminate].
    destruct (Image_frombytes pix) as [img|e] eqn:Himg; [|discriminate].
    destruct (map_outcome rasterize rest) as [imgs'|e] eqn:Hrest; [|discriminate].
    injection Hr as <-.
    cbn [length seq for_each]. unfold bind at 1.
    unfold bind at 1, lift at 1, document_getitem.
    rewrite nth_error_app2 by lia. rewrite Nat.sub_diag. cbn [nth_error].
    unfold bind at 1, lift at 1. rewrite Hpix.
    unfold bind at 1, lift at 1. rewrite Himg. cbn [ret].
    specialize (IH (done ++ [page]) (images ++ [img]) imgs' eq_refl).
    rewrite length_app in IH. cbn [length] in IH.
    rewrite Nat.add_1_r, <- app_assoc in IH. cbn [app] in IH.
    unfold document_getitem in IH.
    rewrite IH, <- app_assoc. reflexivity.
Qed.

Lemma convert_pdf_to_images_ok (pdf_path : string) (pages : list Page)
    (images : list Image) (w : World) :
  fitz_open pdf_path = Return pages ->
  map_outcome rasterize pages = Return images ->
  convert_pdf_to_images pdf_path w = (Return images, w).
Proof.
  intros Hopen Hr. unfold convert_pdf_to_images, try_except.
  unfold bind at 1, lift at 1. rewrite Hopen.
  unfold bind at 1.
  pose proof (rasterize_loop [] pages [] images w Hr) as Hloop.
  cbn [length app] in Hloop. rewrite Hloop. reflexivity.
Qed.

Lemma map_outcome_length {A B} (f : A -> outcome B) (xs : list A) (ys : list B) :
  map_outcome f xs = Return ys -> length ys = length xs.
Proof.
  revert ys. induction xs as [|x xs IH]; intros ys; simpl.
  - intros [= <-]. reflexivity.
  - unfold and_then. destruct (f x); [|discriminate].
    destruct (map_outcome f xs); [|discriminate].
    intros [= <-]. simpl. f_equal. apply IH. reflexivity.
Qed.

(** The loop over the page images collects the strings page by page. *)
Lemma ocr_loop (images : list Image) (text : list string)
    (results : list (option (list (list ocr_line)))) (w : World) :
  map_outcome ocr_image images = Return results ->
  for_each images text
    (fun text img =>
       img_byte_arr <- lift (Image_save_png img) ;;
       result <- lift (paddle_ocr (OcrBytes img_byte_arr)) ;;
       if truthy result
       then ret (append_lines text (default [] result))
       else ret text) w
  = (Return (text ++ flat_map region_texts results), w).
Proof.
  revert text results. induction images as [|img images IH];
    intros text results Hr; simpl in Hr.
  - injection Hr as <-. simpl. rewrite app_nil_r. reflexivity.
  - unfold ocr_image at 1 in Hr. unfold and_then in Hr.
    destruct (Image_save_png img) as [png|e] eqn:Hpng; [|discriminate].
    destruct (paddle_ocr (OcrBytes png)) as [result|e] eqn:Hocr; [|discriminate].
    destruct (map_outcome ocr_image images) as [results'|e] eqn:Hrest; [|discriminate].
    injection Hr as <-.
    cbn [for_each]. unfold bind at 1.
    unfold bind at 1, lift at 1. rewrite Hpng.
    unfold bind at 1, lift at 1. rewrite Hocr.
    cbn [flat_map]. rewrite app_assoc.
    destruct result as [[|res entries]|]; cbn [truthy ret].
    + rewrite (IH text results' eq_refl). simpl. rewrite app_nil_r. reflexivity.
    + rewrite (IH _ results' eq_refl). f_equal. f_equal. f_equal.
      apply append_lines_flat.
    + rewrite (IH text results' eq_refl). simpl. rewrite app_nil_r. reflexivity.
Qed.

(** C6. For a path that does not exist, [extract_text] raises
    [FileNotFoundError]: the exception reaches the caller after one
    error line was logged, and the files are what they were. *)
Theorem missing_path_raises_file_not_found (file_path : string) (w : World) :
  w_fs w !! file_path = None ->
  extract_text file_path w
  = (Raise (Exception FileNotFoundError ("File not found: " +:+ file_path)),
     logged ERROR ("Error extracting text: File not found: " +:+ file_path) w)
  /\ w_fs (snd (extract_text file_path w)) = w_fs w.
Proof.
  intros Hnone.
  assert (Hrun : extract_text file_path w
    = (Raise (Exception FileNotFoundError ("File not found: " +:+ file_path)),
       logged ERROR ("Error extracting text: File not found: " +:+ file_path) w)).
  { unfold extract_text, try_except, bind at 1, path_exists.
    rewrite Hnone.
    rewrite bool_decide_eq_false_2 by (intros [x Hx]; discriminate).
    reflexivity. }
  split; [exact Hrun|]. rewrite Hrun. reflexivity.
Qed.

Lemma lower_app (a b : string) :
  PyStr.lower (a +:+ b) = PyStr.lower a +:+ PyStr.lower b.
Proof.
  induction a as [|c a IH]; [reflexivity|].
  rewrite str_app_cons. simpl. rewrite IH. reflexivity.
Qed.

Lemma lower_app_inv (p a b : string) :
  PyStr.lower p = a +:+ b ->
  exists pa pb, p = pa +:+ pb /\ PyStr.lower pa = a /\ PyStr.lower pb = b.
Proof.
  revert p. induction a as [|c a IH]; intros p Hp.
  - exists "", p. auto.
  - destruct p as [|x p]; [discriminate|].
    rewrite str_app_cons in Hp. simpl in Hp. injection Hp as Hc Hp.
    destruct (IH p Hp) as (pa & pb & -> & <- & <-).
    exists (String x pa), pb. rewrite <- Hc. auto.
Qed.

Lemma lower_char_dot (c : ascii) : PyStr.lower_char c = "."%char -> c = "."%char.
Proof.
  destruct c as [[] [] [] [] [] [] [] []]; vm_compute; intros Hc;
    first [reflexivity | discriminate Hc].
Qed.

Lemma lower_char_letter (c l u : ascii) :
  (l, u) = ("p", "P")%char \/ (l, u) = ("d", "D")%char \/ (l, u) = ("f", "F")%char ->
  PyStr.lower_char c = l -> c = l \/ c = u.
Proof.
  intros [[= -> ->]|[[= -> ->]|[= -> ->]]];
    destruct c as [[] [] [] [] [] [] [] []]; vm_compute; intros Hc;
    first [left; reflexivity | right; reflexivity | discriminate Hc].
Qed.

(** The test the program makes, [file_path.lower().endswith('.pdf')],
    holds exactly for the paths with the PDF extension in any case. *)
Lemma pdf_test_iff (file_path : string) :
  PyStr.endswith (PyStr.lower file_path) ".pdf" = true
  <-> has_pdf_extension file_path.
Proof.
  rewrite endswith_suffix. split.
  - intros [pre Hp]. apply lower_app_inv in Hp as (stem & ext & -> & _ & Hext).
    destruct ext as [|e0 [|e1 [|e2 [|e3 [|e4 ext]]]]]; try discriminate.
    simpl in Hext. injection Hext as H0 H1 H2 H3.
    apply lower_char_dot in H0 as ->.
    exists stem, e1, e2, e3. split; [reflexivity|].
    split; [|split]; eapply lower_char_letter; eauto.
  - intros (stem & e1 & e2 & e3 & -> & H1 & H2 & H3).
    exists (PyStr.lower stem). rewrite lower_app. f_equal.
    destruct H1 as [-> | ->], H2 as [-> | ->], H3 as [-> | ->]; reflexivity.
Qed.

Lemma not_pdf_test (file_path : string) :
  ~ has_pdf_extension file_path ->
  PyStr.endswith (PyStr.lower file_path) ".pdf" = false.
Proof.
  intros Hnot. destruct (PyStr.endswith _ _) eqn:He; [|reflexivity].
  exfalso. apply Hnot, pdf_test_iff, He.
Qed.

(** Entering [extract_text] for an existing path: the existence test
    passes and the test on the extension is decided by [Hext]. *)
Ltac enter_extract_text Hex Hext :=
  unfold extract_text, try_except, bind at 1, path_exists;
  rewrite bool_decide_eq_true_2 by exact Hex; cbn [negb]; rewrite Hext.


(** C10. For an existing path without the PDF extension on which the
    OCR engine returns [None] or an empty list, [extract_text] returns the
    empty string; nothing is raised, logged or written. *)
Theorem empty_ocr_result_gives_empty_string
    (file_path : string) (w : World) (result : option (list (list ocr_line))) :
  is_Some (w_fs w !! file_path) ->
  ~ has_pdf_extension file_path ->
  paddle_ocr (OcrPath file_path) = Return result ->
  truthy result = false ->
  extract_text file_path w = (Return "", w).
Proof.
  intros Hex Hnot Hocr Hfalsy.
  pose proof (not_pdf_test _ Hnot) as Hpdf.
  enter_extract_text Hex Hpdf. unfold bind, lift. rewrite Hocr, Hfalsy. reflexivity.
Qed.

End TextExtractorFacts.

(** ** Paths *)

Lemma rfind_char (c : ascii) (s : string) :
  PyStr.rfind s (String c "") =
  match last_index c s with Some j => Z.of_nat j | None => (-1)%Z end.
Proof.
  unfold PyStr.rfind. rewrite rfind_from_char.
  destruct (last_index c s); [lia|reflexivity].
Qed.

Lemma last_index_app (c : ascii) (a b : string) :
  last_index c (a +:+ b) =
  match last_index c b with
  | Some j => Some (String.length a + j)%nat
  | None => last_index c a
  end.
Proof.
  induction a as [|x a IH].
  - rewrite str_app_nil_l. destruct (last_index c b); reflexivity.
  - rewrite str_app_cons. cbn [last_index String.length]. rewrite IH.
    destruct (last_index c b); reflexivity.
Qed.

Lemma absent_app (c : ascii) (a b : string) :
  absent c a -> absent c b -> absent c (a +:+ b).
Proof.
  intros Ha Hb. apply last_index_None. rewrite last_index_app.
  apply last_index_None in Ha, Hb. rewrite Hb. exact Ha.
Qed.

Lemma absent_substring (c : ascii) (s : string) (n m : nat) :
  absent c s -> absent c (substring n m s).
Proof.
  intros Ha k. destruct (Nat.lt_ge_cases k m) as [Hk|Hk].
  - rewrite substring_correct1 by exact Hk. apply Ha.
  - rewrite substring_correct2 by exact Hk. discriminate.
Qed.

Lemma absent_slice (c : ascii) (s : string) (a b : option Z) :
  absent c s -> absent c (PyStr.slice s a b).
Proof. intros Ha. unfold PyStr.slice. apply absent_substring, Ha. Qed.

Lemma slice_to (s : string) (n : nat) :
  (n <= String.length s)%nat ->
  PyStr.slice s None (Some (Z.of_nat n)) = substring 0 n s.
Proof.
  intros Hn. unfold PyStr.slice, PyStr.clamp, PyStr.len.
  destruct (Z.ltb_spec (Z.of_nat n) 0); [lia|].
  rewrite Z.min_l by lia. rewrite Z.sub_0_r, Nat2Z.id. reflexivity.
Qed.

Lemma slice_from (s : string) (n : nat) :
  (n <= String.length s)%nat ->
  PyStr.slice s (Some (Z.of_nat n)) None = substring n (String.length s - n) s.
Proof.
  intros Hn. unfold PyStr.slice, PyStr.clamp, PyStr.len.
  destruct (Z.ltb_spec (Z.of_nat n) 0); [lia|].
  rewrite Z.min_l by lia. rewrite Nat2Z.id. f_equal. lia.
Qed.

Lemma rfind_slash_parts (head tail : string) :
  absent "/" tail -> slash_closed head ->
  (PyStr.rfind (head +:+ tail) "/" + 1)%Z = Z.of_nat (String.length head).
Proof.
  intros Ht Hh. rewrite rfind_char, last_index_app.
  apply last_index_None in Ht. rewrite Ht.
  destruct Hh as [->|[h ->]]; [reflexivity|].
  rewrite last_index_app, str_length_app. simpl. lia.
Qed.

Lemma basename_parts (head tail : string) :
  absent "/" tail -> slash_closed head ->
  os_path.basename (head +:+ tail) = tail.
Proof.
  intros Ht Hh. unfold os_path.basename.
  rewrite (rfind_slash_parts head tail Ht Hh).
  rewrite slice_from by (rewrite str_length_app; lia).
  rewrite str_length_app.
  replace (String.length head + String.length tail - String.length head)%nat
    with (String.length tail) by lia.
  rewrite <- (Nat.add_0_r (String.length head)) at 1.
  rewrite substring_app_skip. apply substring_all.
Qed.

Lemma dirname_parts (head tail : string) :
  absent "/" tail -> slash_closed head ->
  os_path.dirname (head +:+ tail) =
  if negb (String.eqb head "")
     && negb (String.eqb head (PyStr.replicate (String.length head) "/"))
  then PyStr.rstrip "/" head else head.
Proof.
  intros Ht Hh. unfold os_path.dirname.
  rewrite (rfind_slash_parts head tail Ht Hh).
  rewrite slice_to by (rewrite str_length_app; lia).
  rewrite substring_app_take. reflexivity.
Qed.

(** Every path splits at its last slash. *)
Lemma split_at_last_slash (p : string) :
  exists head tail, p = head +:+ tail /\ absent "/" tail /\ slash_closed head.
Proof.
  induction p as [|a p (head & tail & -> & Ht & Hh)].
  - exists "", "". repeat split; [intros [|k]; discriminate|now left].
  - destruct Hh as [->|[h ->]].
    + destruct (Ascii.eqb_spec a "/") as [->|Hne].
      * exists "/", tail. repeat split; [exact Ht|right; exists ""; reflexivity].
      * exists "", (String a tail). repeat split; [|now left].
        intros [|k]; simpl; [congruence|apply Ht].
    + exists (String a (h +:+ "/")), tail. repeat split; [exact Ht|].
      right. exists (String a h). reflexivity.
Qed.

Lemma replicate_snoc (n : nat) (c : ascii) :
  PyStr.replicate (S n) c = PyStr.replicate n c +:+ String c "".
Proof.
  induction n as [|n IH]; [reflexivity|].
  cbn [PyStr.replicate] in *. rewrite str_app_cons, <- IH. reflexivity.
Qed.

Lemma rstrip_snoc (c : ascii) (s : string) :
  PyStr.rstrip c (s +:+ String c "") = PyStr.rstrip c s.
Proof.
  induction s as [|a s IH].
  - simpl. rewrite Ascii.eqb_refl. reflexivity.
  - rewrite str_app_cons. cbn [PyStr.rstrip]. rewrite IH. reflexivity.
Qed.

Lemma rstrip_empty_iff (c : ascii) (s : string) :
  PyStr.rstrip c s = "" <-> s = PyStr.replicate (String.length s) c.
Proof.
  induction s as [|a s IH]; cbn [PyStr.rstrip String.length PyStr.replicate].
  - split; reflexivity.
  - destruct (PyStr.rstrip c s) as [|x r] eqn:Hr.
    + destruct (Ascii.eqb_spec a c) as [->|Hne].
      * split; [|reflexivity]. intros _. f_equal. apply IH. reflexivity.
      * split; [discriminate|]. intros [= Ha _]. contradiction.
    + split; [discriminate|]. intros [= _ Hs].
      apply IH in Hs. discriminate.
Qed.

(** What [rstrip] returns does not end with the stripped character. *)
Lemma rstrip_not_closed (c : ascii) (s h : string) :
  PyStr.rstrip c s <> h +:+ String c "".
Proof.
  revert h. induction s as [|a s IH]; intros h; cbn [PyStr.rstrip].
  - destruct h; discriminate.
  - destruct (PyStr.rstrip c s) as [|x r] eqn:Hr.
    + destruct (Ascii.eqb_spec a c) as [->|Hne].
      * destruct h; discriminate.
      * destruct h as [|y [|z h]]; try discriminate.
        rewrite str_app_nil_l. congruence.
    + destruct h as [|y h].
      * rewrite str_app_nil_l. discriminate.
      * rewrite str_app_cons. intros [= _ Hx]. exact (IH h Hx).
Qed.

Lemma rstrip_id (c : ascii) (s : string) :
  (forall h, s <> h +:+ String c "") -> PyStr.rstrip c s = s.
Proof.
  induction s as [|a s IH]; intros Hs; [reflexivity|].
  cbn [PyStr.rstrip].
  assert (Hs' : s <> "" -> forall h, s <> h +:+ String c "").
  { intros _ h ->. apply (Hs (String a h)). reflexivity. }
  destruct s as [|b s].
  - simpl. destruct (Ascii.eqb_spec a c) as [->|Hne]; [|reflexivity].
    exfalso. apply (Hs ""). reflexivity.
  - rewrite IH by (apply Hs'; discriminate). reflexivity.
Qed.

(** The directory part of a path is empty, or consists of slashes, or does
    not end with a slash. *)
Lemma dirname_shape (p : string) :
  os_path.dirname p = ""
  \/ (os_path.dirname p <> ""
      /\ os_path.dirname p
         = PyStr.replicate (String.length (os_path.dirname p)) "/")
  \/ (os_path.dirname p <> ""
      /\ forall h, os_path.dirname p <> h +:+ "/").
Proof.
  destruct (split_at_last_slash p) as (head & tail & -> & Ht & Hh).
  rewrite (dirname_parts head tail Ht Hh).
  destruct (String.eqb_spec head "") as [->|Hne]; [now left|]. cbn [negb andb].
  destruct (String.eqb_spec head (PyStr.replicate (String.length head) "/"))
    as [Hall|Hnall]; cbn [negb].
  - right; left. split; assumption.
  - right; right. split.
    + intros Hr. apply rstrip_empty_iff in Hr. contradiction.
    + intros h. apply rstrip_not_closed.
Qed.

Lemma splitext_scan_absent (c : ascii) (n : nat) (p : string) (i d : Z) :
  absent c p -> absent c (fst (os_path.splitext_scan n p i d)).
Proof.
  intros Hp. revert i. induction n as [|n IH]; intros i; cbn [os_path.splitext_scan].
  - exact Hp.
  - destruct (negb _); [apply absent_slice, Hp|apply IH].
Qed.

Lemma splitext_absent (c : ascii) (p : string) :
  absent c p -> absent c (fst (os_path.splitext p)).
Proof.
  intros Hp. unfold os_path.splitext.
  destruct (_ >? _)%Z; [apply splitext_scan_absent, Hp|exact Hp].
Qed.

(** Joining a directory part with a slash-free name that does not begin
    with a slash gives a path with that directory part and that name. *)
Lemma join_dirname_basename (p name : string) :
  absent "/" name ->
  os_path.dirname (os_path.join (os_path.dirname p) name) = os_path.dirname p
  /\ os_path.basename (os_path.join (os_path.dirname p) name) = name.
Proof.
  intros Hname.
  assert (Hstart : PyStr.startswith name "/" = false).
  { unfold PyStr.startswith. rewrite prefix_single.
    destruct name as [|a name]; [reflexivity|].
    destruct (Ascii.eqb_spec "/" a) as [<-|]; [|reflexivity].
    exfalso. apply (Hname 0%nat). reflexivity. }
  unfold os_path.join. rewrite Hstart.
  destruct (dirname_shape p) as [HD|[[Hne Hall]|[Hne Hopen]]];
    set (D := os_path.dirname p) in *.
  - rewrite HD. cbn [String.eqb orb]. rewrite str_app_nil_l.
    assert (Hc : slash_closed "") by now left.
    pose proof (dirname_parts "" name Hname Hc) as Hd.
    pose proof (basename_parts "" name Hname Hc) as Hb.
    rewrite str_app_nil_l in Hd, Hb. split; [exact Hd|exact Hb].
  - assert (Hc : slash_closed D).
    { right. destruct (String.length D) as [|n] eqn:Hn.
      - destruct D; [contradiction|discriminate].
      - exists (PyStr.replicate n "/"). rewrite Hall. apply replicate_snoc. }
    assert (Hend : PyStr.endswith D "/" = true).
    { apply endswith_suffix. destruct Hc as [?|Hc]; [contradiction|exact Hc]. }
    rewrite Hend, orb_true_r.
    split; [|apply basename_parts; assumption].
    rewrite (dirname_parts D name Hname Hc).
    rewrite <- Hall, String.eqb_refl, andb_false_r. reflexivity.
  - assert (Hend : PyStr.endswith D "/" = false).
    { destruct (PyStr.endswith D "/") eqn:He; [|reflexivity].
      apply endswith_suffix in He as [h Hh]. exfalso. exact (Hopen h Hh). }
    rewrite Hend, orb_false_r.
    destruct (String.eqb_spec D "") as [|_]; [contradiction|].
    rewrite <- str_app_assoc.
    assert (Hc : slash_closed (D +:+ "/")) by (right; exists D; reflexivity).
    split; [|apply basename_parts; assumption].
    rewrite (dirname_parts (D +:+ "/") name Hname Hc).
    assert (Hne' : D +:+ "/" <> "") by (destruct D; discriminate).
    assert (Hnall : D +:+ "/" <> PyStr.replicate (String.length (D +:+ "/")) "/").
    { intros Hall. apply rstrip_empty_iff in Hall.
      rewrite rstrip_snoc, rstrip_id in Hall by exact Hopen. contradiction. }
    destruct (String.eqb_spec (D +:+ "/") ""); [contradiction|].
    destruct (String.eqb_spec (D +:+ "/")
                (PyStr.replicate (String.length (D +:+ "/")) "/")); [contradiction|].
    cbn [negb andb]. rewrite rstrip_snoc. apply rstrip_id, Hopen.
Qed.

Lemma basename_absent_slash (p : string) : absent "/" (os_path.basename p).
Proof.
  destruct (split_at_last_slash p) as (head & tail & -> & Ht & Hh).
  rewrite (basename_parts head tail Ht Hh). exact Ht.
Qed.

(** C7. [save_extracted_text] computes the output path from the original
    path alone: the directory part of the original, joined with
    [extracted_], the original's file name without its extension, and
    [.txt].  When that path can be opened for writing, the file there holds
    the text afterwards, whether or not it existed before, every other
    file is untouched, and the path is returned.  The output lies in the
    directory of the original and has the stated name. *)
Theorem save_extracted_text_writes_sibling_file
    (text original_file_path : string) (w : World) :
  let stem := fst (os_path.splitext (os_path.basename original_file_path)) in
  let output_path :=
    os_path.join (os_path.dirname original_file_path)
                 ("extracted_" +:+ stem +:+ ".txt") in
  output_path ∉ w_readonly w ->
  w_fs w !! output_path <> Some Directory ->
  exists w',
    save_extracted_text text original_file_path w = (Return output_path, w')
    /\ w_fs w' = <[output_path := TextFile text]> (w_fs w)
    /\ os_path.dirname output_path = os_path.dirname original_file_path
    /\ os_path.basename output_path = "extracted_" +:+ stem +:+ ".txt".
Proof.
  intros stem output_path Hrw Hdir.
  assert (Hname : absent "/" ("extracted_" +:+ stem +:+ ".txt")).
  { apply absent_app; [apply last_index_None; reflexivity|].
    apply absent_app; [|apply last_index_None; reflexivity].
    apply splitext_absent, basename_absent_slash. }
  destruct (join_dirname_basename original_file_path _ Hname) as [Hd Hb].
  eexists. split; [|split; [|split; [exact Hd|exact Hb]]].
  - unfold save_extracted_text, try_except, bind at 1, write_text.
    fold stem. fold output_path.
    destruct (decide (output_path ∈ w_readonly w)) as [|_]; [contradiction|].
    destruct (w_fs w !! output_path) as [[| |]|]; try contradiction; reflexivity.
  - reflexivity.
Qed.

(** ** The JSON round trip *)

Lemma scanstring_escape_char (c : ascii) (r : string) :
  PyJson.scanstring (PyJson.escape_char c +:+ r) = PyJson.cons_char c (PyJson.scanstring r).
Proof.
  destruct c as [[] [] [] [] [] [] [] []];
    match goal with
    | |- context [PyJson.escape_char ?c] =>
        let e := eval vm_compute in (PyJson.escape_char c) in
        change (PyJson.escape_char c) with e
    end;
    rewrite ?str_app_cons, ?str_app_nil_l; reflexivity.
Qed.

Lemma scanstring_escape (s rest : string) :
  PyJson.scanstring (PyJson.escape s +:+ String PyStr.dquote rest) = Some (s, rest).
Proof.
  induction s as [|c s IH].
  - reflexivity.
  - cbn [PyJson.escape]. rewrite str_app_assoc, scanstring_escape_char, IH. reflexivity.
Qed.
Lemma value_end_no_digit rest : value_end rest -> PyJson.starts_with_digit rest = false.
Proof. destruct rest as [|c r]; [reflexivity|]. intros [-> | ->]; reflexivity. Qed.

Lemma value_end_no_float rest : value_end rest -> PyJson.float_follows rest = false.
Proof. destruct rest as [|c r]; [reflexivity|]. intros [-> | ->]; reflexivity. Qed.

Lemma scan_digits_stop rest :
  PyJson.starts_with_digit rest = false -> PyJson.scan_digits rest = (Decimal.Nil, rest).
Proof.
  destruct rest as [|c r]; [reflexivity|]. cbn [PyJson.starts_with_digit PyJson.scan_digits].
  unfold PyJson.is_digit. destruct (PyJson.digit_of_char c); [discriminate|reflexivity].
Qed.

Lemma scan_digits_uint (d : Decimal.uint) (rest : string) :
  PyJson.starts_with_digit rest = false ->
  PyJson.scan_digits (NilEmpty.string_of_uint d +:+ rest) = (d, rest).
Proof.
  intros Hrest. induction d; cbn [NilEmpty.string_of_uint];
    rewrite ?str_app_nil_l, ?str_app_cons;
    [apply scan_digits_stop, Hrest|..];
    cbn [PyJson.scan_digits PyJson.digit_of_char]; rewrite IHd; reflexivity.
Qed.

Lemma nzhead_shape (d : Decimal.uint) :
  match Decimal.nzhead d with Decimal.D0 _ => False | _ => True end.
Proof. induction d; simpl; auto. Qed.

Lemma pos_to_uint_norm (p : positive) : Pos.to_uint p = Decimal.unorm (Pos.to_uint p).
Proof.
  rewrite <- DecimalPos.Unsigned.to_of, DecimalPos.Unsigned.of_to. reflexivity.
Qed.

Lemma pos_to_uint_head (p : positive) :
  match Pos.to_uint p with
  | Decimal.Nil | Decimal.D0 _ => False
  | _ => True
  end.
Proof.
  pose proof (pos_to_uint_norm p) as Hn.
  pose proof (DecimalPos.Unsigned.of_to p) as Hof.
  unfold Decimal.unorm in Hn. pose proof (nzhead_shape (Pos.to_uint p)) as Hs.
  destruct (Decimal.nzhead (Pos.to_uint p)); rewrite Hn in *; try exact I; try contradiction.
  discriminate Hof.
Qed.

Lemma scan_integer_pos (p : positive) (rest : string) :
  PyJson.starts_with_digit rest = false ->
  PyJson.scan_integer (NilEmpty.string_of_uint (Pos.to_uint p) +:+ rest)
  = Some (Pos.to_uint p, rest).
Proof.
  intros Hrest. pose proof (pos_to_uint_head p) as Hh.
  pose proof (scan_digits_uint (Pos.to_uint p) rest Hrest) as Hd.
  destruct (Pos.to_uint p) as [|d|d|d|d|d|d|d|d|d|d]; try contradiction;
    cbn [NilEmpty.string_of_uint] in *; rewrite str_app_cons in *;
    unfold PyJson.scan_integer; cbn [PyJson.is_digit PyJson.digit_of_char];
    rewrite Hd; reflexivity.
Qed.

Lemma string_of_uint_pos (p : positive) :
  NilZero.string_of_uint (Pos.to_uint p) = NilEmpty.string_of_uint (Pos.to_uint p).
Proof.
  pose proof (pos_to_uint_head p). destruct (Pos.to_uint p); try contradiction; reflexivity.
Qed.

Lemma scan_number_int (n : Z) (rest : string) :
  value_end rest ->
  PyJson.scan_number (PyJson.int_repr n +:+ rest) = Some (PyInt n, rest).
Proof.
  intros Hend. pose proof (value_end_no_digit _ Hend) as Hnd.
  pose proof (value_end_no_float _ Hend) as Hnf.
  unfold PyJson.int_repr. rewrite <- (DecimalZ.of_to n) at 2.
  destruct n as [|p|p]; cbn [Z.to_int NilZero.string_of_int].
  - cbn [NilZero.string_of_uint NilEmpty.string_of_uint]. rewrite str_app_cons, str_app_nil_l.
    unfold PyJson.scan_number. cbn [PyJson.scan_integer]. rewrite Hnf. reflexivity.
  - rewrite string_of_uint_pos.
    pose proof (scan_integer_pos p rest Hnd) as Hi.
    pose proof (pos_to_uint_head p) as Hh.
    unfold PyJson.scan_number.
    destruct (Pos.to_uint p) as [|d|d|d|d|d|d|d|d|d|d] eqn:Hp; try contradiction;
      cbn [NilEmpty.string_of_uint] in *; rewrite str_app_cons in *;
      rewrite Hi, Hnf; reflexivity.
  - rewrite string_of_uint_pos, str_app_cons.
    unfold PyJson.scan_number. rewrite (scan_integer_pos p rest Hnd), Hnf. reflexivity.
Qed.

Lemma depth_list items : depth (PyList items) = S (items_depth items).
Proof. reflexivity. Qed.

Lemma depth_dict items : depth (PyDict items) = S (members_depth items).
Proof. reflexivity. Qed.

Lemma well_formed_list items : well_formed (PyList items) <-> Forall well_formed items.
Proof.
  simpl. induction items as [|x l IH]; simpl.
  - split; auto.
  - rewrite Forall_cons, IH. reflexivity.
Qed.

Lemma well_formed_dict items :
  well_formed (PyDict items)
  <-> NoDup (map fst items) /\ Forall (fun kv => well_formed (snd kv)) items.
Proof.
  simpl. apply and_iff_compat_l. induction items as [|[k x] l IH]; simpl.
  - split; auto.
  - rewrite Forall_cons, IH. reflexivity.
Qed.

(** *** White space and first characters *)

Lemma skip_ws_spaces (n : nat) (r : string) :
  PyJson.skip_ws (PyStr.replicate n " " +:+ r) = PyJson.skip_ws r.
Proof.
  induction n as [|n IH]; [reflexivity|].
  cbn [PyStr.replicate]. rewrite str_app_cons. exact IH.
Qed.

Lemma skip_ws_newline_indent (level : nat) (r : string) :
  PyJson.skip_ws (PyJson.newline_indent level +:+ r) = PyJson.skip_ws r.
Proof.
  unfold PyJson.newline_indent. rewrite str_app_cons.
  cbn [PyJson.skip_ws]. change (PyJson.is_whitespace "010") with true.
  cbn iota. apply skip_ws_spaces.
Qed.

Lemma value_start_facts (c : ascii) :
  value_start c ->
  PyJson.is_whitespace c = false
  /\ Ascii.eqb c "]" = false /\ Ascii.eqb c "}" = false /\ Ascii.eqb c "," = false.
Proof.
  intros Hc. destruct c as [[] [] [] [] [] [] [] []]; try (repeat split; reflexivity);
    exfalso; destruct Hc as [Hc|[Hc|[Hc|[Hc|[Hc|[Hc|[Hc|Hc]]]]]]]; discriminate Hc.
Qed.

Lemma starts_value_app (s r : string) : starts_value s -> starts_value (s +:+ r).
Proof. destruct s as [|c s]; [contradiction|]. rewrite str_app_cons. auto. Qed.

Lemma skip_ws_value (s : string) : starts_value s -> PyJson.skip_ws s = s.
Proof.
  destruct s as [|c s]; [contradiction|]. intros Hc.
  apply value_start_facts in Hc as (Hw & _). cbn [PyJson.skip_ws]. rewrite Hw. reflexivity.
Qed.

Lemma expect_value (c : ascii) (s : string) :
  starts_value s -> In c ["]"; "}"; ","]%char -> PyJson.expect c s = None.
Proof.
  destruct s as [|a s]; [contradiction|]. intros Ha Hc.
  apply value_start_facts in Ha as (_ & H1 & H2 & H3).
  cbn [PyJson.expect]. simpl in Hc.
  destruct Hc as [<-|[<-|[<-|[]]]]; [rewrite H1|rewrite H2|rewrite H3]; reflexivity.
Qed.

Lemma int_repr_head (n : Z) : starts_value (PyJson.int_repr n).
Proof.
  unfold PyJson.int_repr. destruct n as [|p|p]; cbn [Z.to_int NilZero.string_of_int].
  - right; right; right; right; right; right; right. reflexivity.
  - rewrite string_of_uint_pos. pose proof (pos_to_uint_head p) as Hh.
    destruct (Pos.to_uint p); try contradiction;
      right; right; right; right; right; right; right; reflexivity.
  - right; right; right; right; right; right; left. reflexivity.
Qed.

Lemma encode_head (level : nat) (v : value) : starts_value (PyJson.encode level v).
Proof.
  destruct v as [ |[]| n | s | [|x l] | [|kv l]]; cbn [PyJson.encode];
    try apply int_repr_head; unfold starts_value, value_start;
    rewrite ?str_app_cons; cbn; tauto.
Qed.

Lemma join_cons2 (sep x y : string) (l : list string) :
  PyStr.join sep (x :: y :: l) = x +:+ sep +:+ PyStr.join sep (y :: l).
Proof. reflexivity. Qed.

Lemma value_end_comma (r : string) : value_end (String "," r).
Proof. left. reflexivity. Qed.

Lemma value_end_newline_indent (level : nat) (r : string) :
  value_end (PyJson.newline_indent level +:+ r).
Proof. right. reflexivity. Qed.

(** *** Unfolding the decoder by one call *)

Lemma scan_items_S (fuel : nat) (s : string) :
  PyJson.scan_items (S fuel) s =
  match PyJson.scan_once fuel s with
  | Some (v, r) =>
      match PyJson.expect "]" (PyJson.skip_ws r) with
      | Some r' => Some ([v], r')
      | None =>
          match PyJson.expect "," (PyJson.skip_ws r) with
          | Some r' =>
              match PyJson.scan_items fuel (PyJson.skip_ws r') with
              | Some (vs, r'') => Some (v :: vs, r'')
              | None => None
              end
          | None => None
          end
      end
  | None => None
  end.
Proof. reflexivity. Qed.

Lemma scan_members_S (fuel : nat) (s : string) :
  PyJson.scan_members (S fuel) s =
  match PyJson.expect PyStr.dquote s with
  | Some r0 =>
      match PyJson.scanstring r0 with
      | Some (key, r1) =>
          match PyJson.expect ":" (PyJson.skip_ws r1) with
          | Some r2 =>
              match PyJson.scan_once fuel (PyJson.skip_ws r2) with
              | Some (v, r3) =>
                  match PyJson.expect "}" (PyJson.skip_ws r3) with
                  | Some r4 => Some ([(key, v)], r4)
                  | None =>
                      match PyJson.expect "," (PyJson.skip_ws r3) with
                      | Some r4 =>
                          match PyJson.scan_members fuel (PyJson.skip_ws r4) with
                          | Some (ps, r5) => Some ((key, v) :: ps, r5)
                          | None => None
                          end
                      | None => None
                      end
                  end
              | None => None
              end
          | None => None
          end
      | None => None
      end
  | None => None
  end.
Proof. reflexivity. Qed.

Lemma scan_once_list (fuel : nat) (rest : string) :
  PyJson.scan_once (S fuel) (String "[" rest) =
  match PyJson.expect "]" (PyJson.skip_ws rest) with
  | Some r' => Some (PyList [], r')
  | None =>
      match PyJson.scan_items fuel (PyJson.skip_ws rest) with
      | Some (values, r') => Some (PyList values, r')
      | None => None
      end
  end.
Proof. reflexivity. Qed.

Lemma scan_once_dict (fuel : nat) (rest : string) :
  PyJson.scan_once (S fuel) (String "{" rest) =
  match PyJson.expect "}" (PyJson.skip_ws rest) with
  | Some r' => Some (PyDict [], r')
  | None =>
      match PyJson.scan_members fuel (PyJson.skip_ws rest) with
      | Some (pairs, r') => Some (PyDict (dict_of_pairs pairs), r')
      | None => None
      end
  end.
Proof. reflexivity. Qed.

Lemma scan_once_string (fuel : nat) (rest : string) :
  PyJson.scan_once (S fuel) (String PyStr.dquote rest) =
  match PyJson.scanstring rest with
  | Some (str, r) => Some (PyStr str, r)
  | None => None
  end.
Proof. reflexivity. Qed.

Lemma join_head (sep x : string) (l : list string) :
  starts_value x -> starts_value (PyStr.join sep (x :: l)).
Proof.
  intros Hx. destruct l as [|y l]; [exact Hx|].
  rewrite join_cons2. apply starts_value_app, Hx.
Qed.

Lemma after_comma (r : string) :
  PyJson.skip_ws (String "," r) = String "," r
  /\ PyJson.expect "]" (String "," r) = None
  /\ PyJson.expect "}" (String "," r) = None
  /\ PyJson.expect "," (String "," r) = Some r.
Proof. repeat split. Qed.

Lemma scan_items_encoded (level : nat) (items : list value) (rest : string) (fuel : nat) :
  items <> [] -> Forall decodes items -> Forall well_formed items ->
  items_depth items <= fuel ->
  PyJson.scan_items fuel
    (PyStr.join ("," +:+ PyJson.newline_indent (S level))
                (map (PyJson.encode (S level)) items)
     +:+ PyJson.newline_indent level +:+ "]" +:+ rest)
  = Some (items, rest).
Proof.
  intros Hne Hdec Hwf. revert fuel.
  induction items as [|x items IH]; [contradiction|]. clear Hne.
  intros fuel Hfuel. cbn [items_depth] in Hfuel.
  destruct fuel as [|fuel]; [lia|].
  apply Forall_cons in Hdec as [Hx Hdec]. apply Forall_cons in Hwf as [Hwx Hwf].
  rewrite scan_items_S.
  destruct items as [|y items].
  - cbn [map PyStr.join].
    rewrite (Hx (S level) _ fuel Hwx ltac:(lia) (value_end_newline_indent _ _)).
    rewrite skip_ws_newline_indent. reflexivity.
  - cbn [map]. rewrite join_cons2, !str_app_assoc.
    rewrite str_app_cons, str_app_nil_l.
    rewrite (Hx (S level) _ fuel Hwx ltac:(lia) (value_end_comma _)).
    destruct (after_comma (PyJson.newline_indent (S level) +:+
                PyStr.join ("," +:+ PyJson.newline_indent (S level))
                  (PyJson.encode (S level) y :: map (PyJson.encode (S level)) items)
                +:+ PyJson.newline_indent level +:+ "]" +:+ rest))
      as (-> & -> & _ & ->).
    rewrite skip_ws_newline_indent.
    rewrite skip_ws_value by (apply starts_value_app, join_head, encode_head).
    specialize (IH ltac:(discriminate) Hdec Hwf fuel ltac:(cbn [items_depth] in *; lia)).
    cbn [map] in IH. rewrite IH. reflexivity.
Qed.

Lemma encode_member_head (level : nat) (kv : string * value) :
  starts_value (encode_member level kv).
Proof. destruct kv as [k x]. left. reflexivity. Qed.

Lemma scan_member_key (k : string) (tail : string) :
  exists r0,
    PyJson.expect PyStr.dquote (PyJson.encode_basestring_ascii k +:+ ": " +:+ tail) = Some r0
    /\ PyJson.scanstring r0 = Some (k, String ":" (String " " tail)).
Proof.
  unfold PyJson.encode_basestring_ascii. rewrite str_app_cons.
  eexists. split; [reflexivity|].
  rewrite str_app_assoc, str_app_cons, str_app_nil_l.
  apply scanstring_escape.
Qed.

Lemma scan_members_encoded (level : nat) (items : list (string * value))
    (rest : string) (fuel : nat) :
  items <> [] ->
  Forall (fun kv => decodes (snd kv)) items ->
  Forall (fun kv => well_formed (snd kv)) items ->
  members_depth items <= fuel ->
  PyJson.scan_members fuel
    (PyStr.join ("," +:+ PyJson.newline_indent (S level))
                (map (encode_member level) items)
     +:+ PyJson.newline_indent level +:+ "}" +:+ rest)
  = Some (items, rest).
Proof.
  intros Hne Hdec Hwf. revert fuel.
  induction items as [|[k x] items IH]; [contradiction|]. clear Hne.
  intros fuel Hfuel. cbn [members_depth] in Hfuel.
  destruct fuel as [|fuel]; [lia|].
  apply Forall_cons in Hdec as [Hx Hdec]. apply Forall_cons in Hwf as [Hwx Hwf].
  cbn [snd] in Hx, Hwx.
  rewrite scan_members_S.
  destruct items as [|kv items].
  - cbn [map PyStr.join encode_member]. rewrite !str_app_assoc.
    destruct (scan_member_key k (PyJson.encode (S level) x +:+
                PyJson.newline_indent level +:+ "}" +:+ rest)) as (r0 & -> & ->).
    change (PyJson.expect ":" (PyJson.skip_ws (String ":" (String " " ?t))))
      with (Some (String " " t)).
    cbv beta iota.
    change (PyJson.skip_ws (String " " ?t)) with (PyJson.skip_ws t).
    rewrite skip_ws_value by (apply starts_value_app, encode_head).
    rewrite (Hx (S level) _ fuel Hwx ltac:(lia) (value_end_newline_indent _ _)).
    rewrite skip_ws_newline_indent. reflexivity.
  - cbn [map]. rewrite join_cons2. cbn [encode_member]. rewrite !str_app_assoc.
    destruct (scan_member_key k (PyJson.encode (S level) x +:+
                "," +:+ PyJson.newline_indent (S level) +:+
                PyStr.join ("," +:+ PyJson.newline_indent (S level))
                  (encode_member level kv :: map (encode_member level) items)
                +:+ PyJson.newline_indent level +:+ "}" +:+ rest)) as (r0 & -> & ->).
    change (PyJson.expect ":" (PyJson.skip_ws (String ":" (String " " ?t))))
      with (Some (String " " t)).
    cbv beta iota.
    change (PyJson.skip_ws (String " " ?t)) with (PyJson.skip_ws t).
    rewrite skip_ws_value by (apply starts_value_app, encode_head).
    rewrite str_app_cons, str_app_nil_l.
    rewrite (Hx (S level) _ fuel Hwx ltac:(lia) (value_end_comma _)).
    destruct (after_comma (PyJson.newline_indent (S level) +:+
                PyStr.join ("," +:+ PyJson.newline_indent (S level))
                  (encode_member level kv :: map (encode_member level) items)
                +:+ PyJson.newline_indent level +:+ "}" +:+ rest))
      as (-> & _ & -> & ->).
    rewrite skip_ws_newline_indent.
    rewrite skip_ws_value by (apply starts_value_app, join_head, encode_member_head).
    specialize (IH ltac:(discriminate) Hdec Hwf fuel ltac:(cbn [members_depth] in *; lia)).
    cbn [map] in IH. rewrite IH. reflexivity.
Qed.

(** *** Dicts without repeated keys *)

Lemma dict_set_fresh (d : dict) (key : string) (v : value) :
  key ∉ map fst d -> dict_set d key v = d ++ [(key, v)].
Proof.
  induction d as [|[k x] d IH]; intros Hk; [reflexivity|].
  cbn [map fst] in Hk. apply not_elem_of_cons in Hk as [Hne Hk].
  cbn [dict_set]. destruct (String.eqb_spec k key) as [->|_]; [contradiction|].
  rewrite IH by exact Hk. reflexivity.
Qed.

Lemma fold_dict_set (acc pairs : list (string * value)) :
  NoDup (map fst (acc ++ pairs)) ->
  fold_left (fun d kv => dict_set d (fst kv) (snd kv)) pairs acc = acc ++ pairs.
Proof.
  revert acc. induction pairs as [|[k x] pairs IH]; intros acc Hnd.
  - rewrite app_nil_r. reflexivity.
  - cbn [fold_left fst snd]. rewrite dict_set_fresh.
    + rewrite IH; rewrite <- app_assoc; [reflexivity|exact Hnd].
    + rewrite map_app in Hnd. apply NoDup_app in Hnd as (_ & Hdis & _).
      intros Hin. apply (Hdis k Hin). cbn [map fst]. left.
Qed.

Lemma dict_of_pairs_id (items : list (string * value)) :
  NoDup (map fst items) -> dict_of_pairs items = items.
Proof. intros Hnd. apply (fold_dict_set [] items Hnd). Qed.

Lemma scan_once_number (fuel : nat) (s : string) :
  starts_number s -> PyJson.scan_once (S fuel) s = PyJson.scan_number s.
Proof.
  destruct s as [|c r]; [contradiction|]. intros Hc.
  destruct c as [[] [] [] [] [] [] [] []]; try reflexivity;
    exfalso; destruct Hc as [Hc|Hc]; discriminate Hc.
Qed.

Lemma int_repr_number (n : Z) : starts_number (PyJson.int_repr n).
Proof.
  unfold PyJson.int_repr. destruct n as [|p|p]; cbn [Z.to_int NilZero.string_of_int].
  - right. reflexivity.
  - rewrite string_of_uint_pos. pose proof (pos_to_uint_head p) as Hh.
    destruct (Pos.to_uint p); try contradiction; right; reflexivity.
  - left. reflexivity.
Qed.

Lemma starts_number_app (s r : string) : starts_number s -> starts_number (s +:+ r).
Proof. destruct s as [|c s]; [contradiction|]. rewrite str_app_cons. auto. Qed.

Theorem encode_decodes (v : value) : decodes v.
Proof.
  induction v as [ | b | n | s | items IH | items IH ] using value_ind';
    intros level rest fuel Hwf Hfuel Hend.
  - destruct fuel; [simpl in Hfuel; lia|]. reflexivity.
  - destruct fuel; [simpl in Hfuel; lia|]. destruct b; reflexivity.
  - destruct fuel; [simpl in Hfuel; lia|]. cbn [PyJson.encode].
    rewrite scan_once_number by apply starts_number_app, int_repr_number.
    apply scan_number_int, Hend.
  - destruct fuel; [simpl in Hfuel; lia|]. cbn [PyJson.encode].
    unfold PyJson.encode_basestring_ascii.
    rewrite str_app_cons, scan_once_string, str_app_assoc, str_app_cons, str_app_nil_l.
    rewrite scanstring_escape. reflexivity.
  - rewrite depth_list in Hfuel. destruct fuel as [|fuel]; [lia|].
    destruct items as [|x items]; [reflexivity|].
    apply well_formed_list in Hwf.
    cbn [PyJson.encode]. rewrite !str_app_assoc, str_app_cons, str_app_nil_l.
    rewrite scan_once_list, skip_ws_newline_indent.
    rewrite skip_ws_value by (apply starts_value_app, join_head, encode_head).
    rewrite expect_value;
      [|apply starts_value_app, join_head, encode_head|simpl; tauto].
    rewrite (scan_items_encoded level (x :: items) rest fuel);
      [reflexivity|discriminate|exact IH|exact Hwf|lia].
  - rewrite depth_dict in Hfuel. destruct fuel as [|fuel]; [lia|].
    destruct items as [|kv items]; [reflexivity|].
    apply well_formed_dict in Hwf as [Hnd Hwf].
    cbn [PyJson.encode].
    change (map _ (kv :: items)) with (map (encode_member level) (kv :: items)).
    rewrite !str_app_assoc, str_app_cons, str_app_nil_l.
    rewrite scan_once_dict, skip_ws_newline_indent.
    rewrite skip_ws_value by (apply starts_value_app, join_head, encode_member_head).
    rewrite expect_value;
      [|apply starts_value_app, join_head, encode_member_head|simpl; tauto].
    rewrite (scan_members_encoded level (kv :: items) rest fuel);
      [|discriminate|exact IH|exact Hwf|lia].
    rewrite dict_of_pairs_id by exact Hnd. reflexivity.
Qed.

(** The fuel of [decode] suffices. *)
Lemma starts_value_length (s : string) : starts_value s -> 1 <= String.length s.
Proof. destruct s; [contradiction|]. simpl. lia. Qed.

Lemma newline_indent_length (level : nat) : 1 <= String.length (PyJson.newline_indent level).
Proof. unfold PyJson.newline_indent. simpl. lia. Qed.

Lemma items_depth_le (sep : string) (level : nat) (items : list value) :
  1 <= String.length sep -> Forall shallow items ->
  items_depth items
  <= String.length (PyStr.join sep (map (PyJson.encode level) items)) + 1.
Proof.
  intros Hsep Hall. induction items as [|x items IH]; [simpl; lia|].
  apply Forall_cons in Hall as [Hx Hall]. specialize (IH Hall).
  specialize (Hx level). cbn [items_depth].
  destruct items as [|y items].
  - cbn [map PyStr.join items_depth]. lia.
  - cbn [map] in *. rewrite join_cons2, !str_length_app. lia.
Qed.

Lemma members_depth_le (sep : string) (level : nat) (items : list (string * value)) :
  1 <= String.length sep -> Forall (fun kv => shallow (snd kv)) items ->
  members_depth items
  <= String.length (PyStr.join sep (map (encode_member level) items)) + 1.
Proof.
  intros Hsep Hall. induction items as [|[k x] items IH]; [simpl; lia|].
  apply Forall_cons in Hall as [Hx Hall]. specialize (IH Hall).
  specialize (Hx (S level)). cbn [snd] in Hx. cbn [members_depth].
  assert (Hm : depth x <= String.length (encode_member level (k, x))).
  { cbn [encode_member]. rewrite !str_length_app. lia. }
  destruct items as [|kv items].
  - cbn [map PyStr.join members_depth]. lia.
  - cbn [map] in *. rewrite join_cons2, !str_length_app. lia.
Qed.

Lemma encode_shallow (v : value) : shallow v.
Proof.
  induction v as [ | b | n | s | items IH | items IH ] using value_ind'; intros level.
  - simpl. lia.
  - destruct b; simpl; lia.
  - apply (starts_value_length _ (encode_head level (PyInt n))).
  - apply (starts_value_length _ (encode_head level (PyStr s))).
  - rewrite depth_list. destruct items as [|x items]; [simpl; lia|].
    cbn [PyJson.encode]. rewrite !str_length_app.
    pose proof (items_depth_le ("," +:+ PyJson.newline_indent (S level)) (S level)
                  (x :: items) ltac:(rewrite str_length_app; simpl; lia) IH).
    pose proof (newline_indent_length (S level)).
    pose proof (newline_indent_length level).
    cbn [String.length]. lia.
  - rewrite depth_dict. destruct items as [|kv items]; [simpl; lia|].
    cbn [PyJson.encode].
    change (map _ (kv :: items)) with (map (encode_member level) (kv :: items)).
    rewrite !str_length_app.
    pose proof (members_depth_le ("," +:+ PyJson.newline_indent (S level)) level
                  (kv :: items) ltac:(rewrite str_length_app; simpl; lia) IH).
    pose proof (newline_indent_length (S level)).
    pose proof (newline_indent_length level).
    cbn [String.length]. lia.
Qed.

(** Decoding what the encoder wrote gives the value back. *)
Theorem decode_dumps (v : value) :
  well_formed v -> PyJson.decode (PyJson.dumps_indent2 v) = Some v.
Proof.
  intros Hwf. unfold PyJson.decode, PyJson.dumps_indent2.
  rewrite skip_ws_value by apply encode_head.
  rewrite <- (str_app_nil_r (PyJson.encode 0 v)) at 2.
  rewrite (encode_decodes v 0 "" _ Hwf); [reflexivity| |exact I].
  pose proof (encode_shallow v 0). lia.
Qed.

Theorem loads_dumps (v : value) :
  well_formed v -> PyJson.loads (PyJson.dumps_indent2 v) = Return v.
Proof. intros Hwf. unfold PyJson.loads. rewrite decode_dumps by exact Hwf. reflexivity. Qed.

(** What the decoder builds, and so every record of the program, is well
    formed. *)

Lemma dict_set_keys (d : dict) (key : string) (v : value) :
  map fst (dict_set d key v)
  = if bool_decide (key ∈ map fst d) then map fst d else map fst d ++ [key].
Proof.
  induction d as [|[k x] d IH]; [reflexivity|].
  cbn [dict_set map fst]. destruct (String.eqb_spec k key) as [->|Hne].
  - rewrite bool_decide_eq_true_2 by left. reflexivity.
  - cbn [map fst]. rewrite IH.
    destruct (bool_decide (key ∈ map fst d)) eqn:Hin.
    + apply bool_decide_eq_true in Hin.
      rewrite bool_decide_eq_true_2 by (right; exact Hin). reflexivity.
    + apply bool_decide_eq_false in Hin.
      rewrite bool_decide_eq_false_2; [reflexivity|].
      intros [?|?]%elem_of_cons; [congruence|contradiction].
Qed.

Lemma dict_set_NoDup (d : dict) (key : string) (v : value) :
  NoDup (map fst d) -> NoDup (map fst (dict_set d key v)).
Proof.
  intros Hnd. rewrite dict_set_keys.
  destruct (bool_decide (key ∈ map fst d)) eqn:Hin; [exact Hnd|].
  apply bool_decide_eq_false in Hin.
  apply NoDup_app. split; [exact Hnd|]. split.
  - intros x Hx Hx'. apply list_elem_of_singleton in Hx'. subst. contradiction.
  - apply NoDup_singleton.
Qed.

Lemma dict_set_Forall (P : value -> Prop) (d : dict) (key : string) (v : value) :
  Forall (fun kv => P (snd kv)) d -> P v ->
  Forall (fun kv => P (snd kv)) (dict_set d key v).
Proof.
  intros Hd Hv. induction d as [|[k x] d IH]; cbn [dict_set].
  - constructor; [exact Hv|constructor].
  - apply Forall_cons in Hd as [Hx Hd].
    destruct (String.eqb k key); constructor; auto.
Qed.

Lemma dict_of_pairs_well_formed (pairs : list (string * value)) :
  Forall (fun kv => well_formed (snd kv)) pairs ->
  well_formed (PyDict (dict_of_pairs pairs)).
Proof.
  intros Hp. apply well_formed_dict. unfold dict_of_pairs.
  assert (Hacc : NoDup (map fst ([] : dict))
                 /\ Forall (fun kv => well_formed (snd kv)) ([] : dict)).
  { split; constructor. }
  revert Hacc. generalize ([] : dict) as acc.
  induction pairs as [|[k x] pairs IH]; intros acc [Hnd Hwf]; cbn [fold_left].
  - split; assumption.
  - apply Forall_cons in Hp as [Hx Hp]. apply (IH Hp). split.
    + apply dict_set_NoDup, Hnd.
    + apply dict_set_Forall; assumption.
Qed.

Lemma scan_number_well_formed (s : string) (v : value) (r : string) :
  PyJson.scan_number s = Some (v, r) -> well_formed v.
Proof.
  unfold PyJson.scan_number.
  destruct (match s with String "-" r0 => (true, r0) | _ => (false, s) end) as [neg body].
  destruct (PyJson.scan_integer body) as [[d rest]|]; [|discriminate].
  destruct (PyJson.float_follows rest); [discriminate|].
  intros [= <- _]. exact I.
Qed.

Lemma scan_constant_well_formed (word : string) (c v : value) (s r : string) :
  well_formed c -> PyJson.scan_constant word c s = Some (v, r) -> well_formed v.
Proof.
  unfold PyJson.scan_constant. intros Hc.
  destruct (PyJson.strip_prefix word s); [|discriminate]. intros [= <- _]. exact Hc.
Qed.

(** What the decoder builds has no key twice. *)
Lemma scan_well_formed (fuel : nat) :
  (forall s v r, PyJson.scan_once fuel s = Some (v, r) -> well_formed v)
  /\ (forall s vs r, PyJson.scan_items fuel s = Some (vs, r) -> Forall well_formed vs)
  /\ (forall s ps r, PyJson.scan_members fuel s = Some (ps, r) ->
        Forall (fun kv => well_formed (snd kv)) ps).
Proof.
  induction fuel as [|fuel (IHonce & IHitems & IHmembers)];
    [repeat split; intros; discriminate|].
  split; [|split].
  - intros s v r. cbn [PyJson.scan_once].
    destruct s as [|c rest]; [discriminate|].
    destruct (Ascii.eqb c PyStr.dquote).
    { destruct (PyJson.scanstring rest) as [[str r']|]; [|discriminate].
      intros [= <- _]. exact I. }
    destruct (Ascii.eqb c "{").
    { cbv zeta. destruct (PyJson.expect "}" _); [intros [= <- _]; split; constructor|].
      destruct (PyJson.scan_members fuel _) as [[pairs r']|] eqn:Hm; [|discriminate].
      intros [= <- _]. apply dict_of_pairs_well_formed, (IHmembers _ _ _ Hm). }
    destruct (Ascii.eqb c "[").
    { cbv zeta. destruct (PyJson.expect "]" _); [intros [= <- _]; exact I|].
      destruct (PyJson.scan_items fuel _) as [[values r']|] eqn:Hi; [|discriminate].
      intros [= <- _]. apply well_formed_list, (IHitems _ _ _ Hi). }
    destruct (Ascii.eqb c "n"); [apply scan_constant_well_formed; exact I|].
    destruct (Ascii.eqb c "t"); [apply scan_constant_well_formed; exact I|].
    destruct (Ascii.eqb c "f"); [apply scan_constant_well_formed; exact I|].
    apply scan_number_well_formed.
  - intros s vs r. rewrite scan_items_S.
    destruct (PyJson.scan_once fuel s) as [[v r0]|] eqn:Hv; [|discriminate].
    apply IHonce in Hv.
    destruct (PyJson.expect "]" _); [intros [= <- _]; constructor; auto|].
    destruct (PyJson.expect "," _); [|discriminate].
    destruct (PyJson.scan_items fuel _) as [[vs' r']|] eqn:Hi; [|discriminate].
    intros [= <- _]. constructor; [exact Hv|apply (IHitems _ _ _ Hi)].
  - intros s ps r. rewrite scan_members_S.
    destruct (PyJson.expect PyStr.dquote s); [|discriminate].
    destruct (PyJson.scanstring _) as [[key r1]|]; [|discriminate].
    destruct (PyJson.expect ":" _); [|discriminate].
    destruct (PyJson.scan_once fuel _) as [[v r3]|] eqn:Hv; [|discriminate].
    apply IHonce in Hv.
    destruct (PyJson.expect "}" _); [intros [= <- _]; constructor; auto|].
    destruct (PyJson.expect "," _); [|discriminate].
    destruct (PyJson.scan_members fuel _) as [[ps' r']|] eqn:Hm; [|discriminate].
    intros [= <- _]. constructor; [exact Hv|apply (IHmembers _ _ _ Hm)].
Qed.

Lemma loads_well_formed (s : string) (v : value) :
  PyJson.loads s = Return v -> well_formed v.
Proof.
  unfold PyJson.loads, PyJson.decode.
  destruct (PyJson.scan_once _ _) as [[v' rest]|] eqn:Hs; [|discriminate].
  destruct (PyJson.skip_ws rest); [|discriminate].
  intros [= <-]. apply (proj1 (scan_well_formed _) _ _ _ Hs).
Qed.

Lemma dict_get_Forall (P : value -> Prop) (d : dict) (key : string) (v : value) :
  Forall (fun kv => P (snd kv)) d -> dict_get d key = Some v -> P v.
Proof.
  induction d as [|[k x] d IH]; [discriminate|].
  intros [Hx Hd]%Forall_cons. cbn [dict_get].
  destruct (String.eqb k key); [intros [= <-]; exact Hx|apply IH, Hd].
Qed.

Lemma dict_set_well_formed (d : dict) (key : string) (v : value) :
  well_formed (PyDict d) -> well_formed v -> well_formed (PyDict (dict_set d key v)).
Proof.
  intros [Hnd Hwf]%well_formed_dict Hv. apply well_formed_dict. split.
  - apply dict_set_NoDup, Hnd.
  - apply dict_set_Forall; assumption.
Qed.

Section WellFormedRecords.
Context `{Ollama} `{JsonModule}.
Hypothesis loads_sound : forall s v, json_loads s = Return v -> well_formed v.

Lemma default_record_well_formed : well_formed (PyDict default_record).
Proof.
  apply well_formed_dict. split; [|repeat constructor].
  apply (bool_decide_unpack (NoDup _)). vm_compute. exact I.
Qed.

Lemma projected_well_formed (d : dict) (key : string) :
  well_formed (PyDict d) -> well_formed (projected d key).
Proof.
  intros [_ Hwf]%well_formed_dict. unfold projected.
  destruct (dict_get d key) as [v|] eqn:Hg.
  - apply (dict_get_Forall _ _ _ _ Hwf Hg).
  - destruct (String.eqb key "tech_stack"); exact I.
Qed.

Lemma extract_record_well_formed (resume_text : string) (w w' : World) (record : dict) :
  extract_resume_info_with_qwen resume_text w = (Return record, w') ->
  well_formed (PyDict record).
Proof.
  rewrite extract_resume_info_with_qwen_cases.
  destruct (chat_call resume_text) as [response|e];
    [|intros [= <- _]; apply default_record_well_formed].
  destruct (json_content_of _) as [json_content|];
    [|intros [= <- _]; apply default_record_well_formed].
  destruct (json_loads json_content) as [v|e] eqn:Hl;
    [|intros [= <- _]; apply default_record_well_formed].
  apply loads_sound in Hl.
  destruct v as [ | | | | |d]; try (intros [= <- _]; apply default_record_well_formed).
  intros [= <- _]. apply well_formed_dict. split.
  - cbn [map fst]. apply (bool_decide_unpack (NoDup _)). vm_compute. exact I.
  - repeat constructor; apply projected_well_formed, Hl.
Qed.

Lemma process_resume_file_well_formed (file_path : string) (w w' : World) (record : dict) :
  process_resume_file file_path w = (Return record, w') ->
  well_formed (PyDict record).
Proof.
  unfold process_resume_file, try_except, bind, read_text, ret.
  destruct (w_fs w !! file_path) as [[| text |]|];
    try (intros [= <- _]; apply well_formed_dict; split;
         [apply NoDup_singleton|repeat constructor]).
  destruct (extract_resume_info_with_qwen text w) as [[r|e] w1] eqn:He.
  - intros [= <- _]. apply (extract_record_well_formed _ _ _ _ He).
  - intros [= <- _]. apply well_formed_dict; split;
      [apply NoDup_singleton|repeat constructor].
Qed.

Lemma batch_loop_well_formed (paths : list string) (acc results : list dict) (w w' : World) :
  Forall (fun r => well_formed (PyDict r)) acc ->
  for_each paths acc batch_step w = (Return results, w') ->
  Forall (fun r => well_formed (PyDict r)) results.
Proof.
  revert acc w. induction paths as [|p paths IH]; intros acc w Hacc.
  - intros [= <- _]. exact Hacc.
  - cbn [for_each]. unfold bind at 1. unfold batch_step at 1.
    unfold bind at 1. cbn [print]. set (w1 := mkWorld _ _ _ _).
    unfold bind at 1.
    destruct (process_resume_file p w1) as [[r|e] w2] eqn:Hp; [|discriminate].
    cbn [ret]. apply IH.
    apply Forall_app. split; [exact Hacc|]. constructor; [|constructor].
    apply dict_set_well_formed; [|exact I].
    apply (process_resume_file_well_formed _ _ _ _ Hp).
Qed.

Lemma process_all_resumes_well_formed (directory_path : string) (w w' : World)
    (results : list dict) :
  process_all_resumes directory_path w = (Return results, w') ->
  well_formed (PyList (map PyDict results)).
Proof.
  unfold process_all_resumes. unfold bind at 1. rewrite Path_glob_txt.
  unfold bind at 1.
  change (for_each (txt_files w directory_path) [] _ w)
    with (for_each (txt_files w directory_path) [] batch_step w).
  destruct (for_each _ _ _ w) as [[rs|e] w1] eqn:Hrun; [|discriminate].
  intros [= <- _]. apply well_formed_list, Forall_map.
  apply (batch_loop_well_formed (txt_files w directory_path) [] rs w w1);
    [constructor|exact Hrun].
Qed.

End WellFormedRecords.

(** A file that was written reads back, also after a line was printed. *)
Lemma write_then_read (path text line : string) (w : World) :
  path ∉ w_readonly w ->
  w_fs w !! path <> Some Directory ->
  exists w',
    write_text path text w = (Return tt, w')
    /\ read_text path (printed line w') = (Return text, printed line w').
Proof.
  intros Hrw Hdir. unfold write_text, read_text.
  destruct (decide (path ∈ w_readonly w)) as [|_]; [contradiction|].
  destruct (w_fs w !! path) as [[| |]|]; try contradiction;
    (eexists; split; [reflexivity|]);
    cbn [printed print snd w_fs]; rewrite lookup_insert_eq; reflexivity.
Qed.



(** ** More on the extraction of one resume *)

Lemma only_printed_refl (w : World) : only_printed w w.
Proof. repeat split. exists []. rewrite app_nil_r. reflexivity. Qed.

Lemma only_printed_print (line : string) (w : World) : only_printed w (printed line w).
Proof. repeat split. exists [line]. reflexivity. Qed.

Lemma only_printed_trans (w1 w2 w3 : World) :
  only_printed w1 w2 -> only_printed w2 w3 -> only_printed w1 w3.
Proof.
  intros (Hf1 & Hr1 & Hl1 & l1 & Ho1) (Hf2 & Hr2 & Hl2 & l2 & Ho2).
  repeat split; try congruence.
  exists (l1 ++ l2). rewrite Ho2, Ho1, app_assoc. reflexivity.
Qed.

Section MoreInfoExtractorFacts.
Context `{Ollama} `{JsonModule}.

(** X1. The chat service is down: the exception is caught, one line that
    carries its message is printed, and the default record is returned. *)
Theorem chat_failure_gives_default_record
    (resume_text : string) (w : World) (e : exn) :
  chat_call resume_text = Raise e ->
  extract_resume_info_with_qwen resume_text w
  = (Return default_record, printed ("Error during extraction: " +:+ exn_str e) w).
Proof.
  intros Hchat. rewrite extract_resume_info_with_qwen_cases, Hchat. reflexivity.
Qed.

(** X2. A reply without an opening or without a closing brace fails without a
    trace: the default record, and not a line printed. *)
Theorem reply_without_braces_fails_silently
    (resume_text : string) (w : World) (response : ChatResponse) :
  chat_call resume_text = Return response ->
  absent "{" (content (message response)) \/ absent "}" (content (message response)) ->
  extract_resume_info_with_qwen resume_text w = (Return default_record, w).
Proof.
  intros Hchat Habs. rewrite extract_resume_info_with_qwen_cases, Hchat.
  rewrite json_content_of_absent by exact Habs. reflexivity.
Qed.

Lemma extract_only_prints (resume_text : string) (w : World) :
  exists result w',
    extract_resume_info_with_qwen resume_text w = (Return result, w')
    /\ only_printed w w'.
Proof.
  rewrite extract_resume_info_with_qwen_cases.
  destruct (chat_call resume_text) as [response|e];
    [|eexists _, _; split; [reflexivity|apply only_printed_print]].
  destruct (json_content_of _) as [json_content|];
    [|eexists _, _; split; [reflexivity|apply only_printed_refl]].
  destruct (json_loads json_content) as [[ | | | | |d]|e];
    eexists _, _; (split; [reflexivity|]);
    first [apply only_printed_print | apply only_printed_refl].
Qed.

(** X3. Whatever the chat service and the parser do, the function returns:
    either a record with exactly the five recognized keys and nothing
    printed, or the default record; apart from printing the world is
    unchanged. *)
Theorem extraction_returns_five_keys_or_default (resume_text : string) (w : World) :
  exists result w',
    extract_resume_info_with_qwen resume_text w = (Return result, w')
    /\ only_printed w w'
    /\ ((dict_keys result = recognized_keys /\ dict_get result "error" = None /\ w' = w)
        \/ result = default_record).
Proof.
  rewrite extract_resume_info_with_qwen_cases.
  destruct (chat_call resume_text) as [response|e].
  2: { eexists _, _. split; [reflexivity|].
       split; [apply only_printed_print|right; reflexivity]. }
  destruct (json_content_of _) as [json_content|].
  2: { eexists _, _. split; [reflexivity|].
       split; [apply only_printed_refl|right; reflexivity]. }
  destruct (json_loads json_content) as [[ | | | | |d]|e];
    try (eexists _, _; split; [reflexivity|];
         split; [apply only_printed_print|right; reflexivity]).
  eexists _, _. split; [reflexivity|]. split; [apply only_printed_refl|].
  left. split; [unfold dict_keys; rewrite map_map; apply map_id|].
  split; [|reflexivity]. rewrite dict_get_tabulate. reflexivity.
Qed.

(** What [extract_resume_info_with_qwen] returns does not depend on the
    world it runs in. *)
Lemma extract_result_world_independent (resume_text : string) (w w' : World) :
  fst (extract_resume_info_with_qwen resume_text w)
  = fst (extract_resume_info_with_qwen resume_text w').
Proof.
  rewrite !extract_resume_info_with_qwen_cases.
  destruct (chat_call resume_text) as [response|e]; [|reflexivity].
  destruct (json_content_of _) as [json_content|]; [|reflexivity].
  destruct (json_loads json_content) as [[ | | | | |d]|e]; reflexivity.
Qed.

Lemma process_resume_file_unfold (file_path : string) (w : World) :
  process_resume_file file_path w =
  match w_fs w !! file_path with
  | Some (TextFile text) => extract_resume_info_with_qwen text w
  | _ => (Return [("error", PyStr (match fst (read_text file_path w) with
                                   | Raise e => exn_str e
                                   | Return _ => ""
                                   end))], w)
  end.
Proof.
  unfold process_resume_file, try_except, bind, read_text, ret.
  destruct (w_fs w !! file_path) as [[| text |]|]; try reflexivity.
  destruct (extract_resume_info_with_qwen_total text w) as (r & w' & -> & _).
  reflexivity.
Qed.

(** X4. [process_resume_file], case by case: a file that reads as text is
    handed to the extraction, whose outcome is returned as it is; any
    exception of the reading becomes a record that holds its message under
    [error] and nothing else, and the world is what it was. *)
Theorem process_resume_file_reads_then_extracts (file_path : string) (w : World) :
  process_resume_file file_path w =
  match read_text file_path w with
  | (Return text, _) => extract_resume_info_with_qwen text w
  | (Raise e, _) => (Return [("error", PyStr (exn_str e))], w)
  end.
Proof.
  rewrite process_resume_file_unfold. unfold read_text.
  destruct (w_fs w !! file_path) as [[| text |]|]; reflexivity.
Qed.

Lemma process_resume_file_frame (file_path : string) (w : World) :
  exists record w',
    process_resume_file file_path w = (Return record, w') /\ only_printed w w'.
Proof.
  rewrite process_resume_file_unfold.
  destruct (w_fs w !! file_path) as [[| text |]|];
    try (eexists _, _; split; [reflexivity|apply only_printed_refl]).
  destruct (extract_only_prints text w) as (r & w' & -> & Hp). eauto.
Qed.


Lemma process_result_depends_on_files (file_path : string) (w w' : World) :
  w_fs w' = w_fs w ->
  fst (process_resume_file file_path w') = fst (process_resume_file file_path w).
Proof.
  intros Hfs. rewrite !process_resume_file_unfold. unfold read_text. rewrite Hfs.
  destruct (w_fs w !! file_path) as [[| text |]|]; try reflexivity.
  apply extract_result_world_independent.
Qed.

Lemma only_printed_keeps_lines (w w' : World) (line : string) :
  only_printed w w' -> line ∈ w_stdout w -> line ∈ w_stdout w'.
Proof.
  intros (_ & _ & _ & lines & ->) Hin. apply elem_of_app. left. exact Hin.
Qed.

(** The loop of the batch: the records, what it leaves alone, and the
    lines it prints. *)
Lemma batch_loop_records (w0 : World) (paths : list string) (acc : list dict) (w : World) :
  only_printed w0 w ->
  exists w',
    for_each paths acc batch_step w
    = (Return (acc ++ map (tagged_record w0) paths), w')
    /\ only_printed w w'
    /\ Forall (fun p => ("Processing: " +:+ Path_name p) ∈ w_stdout w') paths.
Proof.
  revert acc w. induction paths as [|p paths IH]; intros acc w Hw.
  - exists w. cbn [for_each map]. rewrite app_nil_r.
    split; [reflexivity|]. split; [apply only_printed_refl|constructor].
  - cbn [for_each]. unfold bind at 1. unfold batch_step at 1.
    unfold bind at 1.
    change (print ("Processing: " +:+ Path_name p) w)
      with (Return tt, printed ("Processing: " +:+ Path_name p) w).
    set (w1 := printed ("Processing: " +:+ Path_name p) w).
    assert (H1 : only_printed w w1) by apply only_printed_print.
    unfold bind at 1.
    destruct (process_resume_file_frame p w1) as (r & w2 & Hrun & H2).
    rewrite Hrun. cbn [ret].
    assert (Hr : r = record_for w0 p).
    { unfold record_for.
      rewrite <- (process_result_depends_on_files p w0 w1).
      - rewrite Hrun. reflexivity.
      - destruct Hw as (Hf & _). destruct H1 as (Hf1 & _). congruence. }
    subst r.
    destruct (IH (acc ++ [dict_set (record_for w0 p) "file_name" (PyStr (Path_name p))]) w2)
      as (w' & -> & H3 & Hlines).
    { eapply only_printed_trans; [exact Hw|].
      eapply only_printed_trans; [exact H1|exact H2]. }
    exists w'. split; [rewrite <- app_assoc; reflexivity|].
    split.
    + eapply only_printed_trans; [exact H1|].
      eapply only_printed_trans; [exact H2|exact H3].
    + constructor; [|exact Hlines].
      apply (only_printed_keeps_lines w2 w'); [exact H3|].
      apply (only_printed_keeps_lines w1 w2); [exact H2|].
      unfold w1, printed. cbn. apply elem_of_app. right. left.
Qed.

Lemma process_all_resumes_unfold (directory_path : string) (w : World) :
  process_all_resumes directory_path w
  = match for_each (txt_files w directory_path) [] batch_step w with
    | (Return results, w') => (Return results, w')
    | (Raise e, w') => (Raise e, w')
    end.
Proof.
  unfold process_all_resumes. unfold bind at 1. rewrite Path_glob_txt.
  unfold bind at 1. unfold ret.
  change (for_each (txt_files w directory_path) [] _ w)
    with (for_each (txt_files w directory_path) [] batch_step w).
  destruct (for_each _ _ _ w) as [[rs|e] w1]; reflexivity.
Qed.




End MoreInfoExtractorFacts.


(** ** More on saving the results *)

Section MoreSavingFacts.
Context `{JsonModule}.

(** X8. A path that cannot be opened for writing: the exception reaches the
    caller, there being no handler, and nothing is written or printed. *)
Theorem save_results_failure_leaves_no_trace
    (results : value) (output_path : string) (w : World) :
  output_path ∈ w_readonly w \/ w_fs w !! output_path = Some Directory ->
  exists e, save_results_to_json results output_path w = (Raise e, w).
Proof.
  intros Hbad. unfold save_results_to_json, bind, write_text.
  destruct (decide (output_path ∈ w_readonly w)) as [|Hrw]; [eauto|].
  destruct Hbad as [|Hdir]; [contradiction|]. rewrite Hdir. eauto.
Qed.

Lemma save_results_effect (results : value) (output_path : string) (w : World) :
  output_path ∉ w_readonly w ->
  w_fs w !! output_path <> Some Directory ->
  save_results_to_json results output_path w
  = (Return tt,
     mkWorld (<[output_path := TextFile (json_dumps_indent2 results)]> (w_fs w))
             (w_readonly w) (w_log w)
             (w_stdout w ++ ["Results saved to " +:+ output_path])).
Proof.
  intros Hrw Hdir. unfold save_results_to_json, bind, write_text.
  destruct (decide (output_path ∈ w_readonly w)) as [|_]; [contradiction|].
  destruct (w_fs w !! output_path) as [[| |]|]; try contradiction; reflexivity.
Qed.

(** X9. Saving twice to one path: the second text replaces the first, every
    other file is as before, and each call prints its line. *)
Theorem save_results_last_write_wins
    (first second : value) (output_path : string) (w : World) :
  output_path ∉ w_readonly w ->
  w_fs w !! output_path <> Some Directory ->
  exists w1 w2,
    save_results_to_json first output_path w = (Return tt, w1)
    /\ save_results_to_json second output_path w1 = (Return tt, w2)
    /\ w_fs w2 = <[output_path := TextFile (json_dumps_indent2 second)]> (w_fs w)
    /\ w_stdout w2 = w_stdout w ++ [ "Results saved to " +:+ output_path;
                                      "Results saved to " +:+ output_path ]
    /\ w_log w2 = w_log w.
Proof.
  intros Hrw Hdir. eexists _, _.
  split; [apply save_results_effect; assumption|].
  split; [apply save_results_effect; cbn [w_readonly w_fs];
          [exact Hrw|rewrite lookup_insert_eq; discriminate]|].
  cbn [w_fs w_stdout w_log]. rewrite insert_insert_eq, <- app_assoc. auto.
Qed.

End MoreSavingFacts.


(** ** More on text extraction *)

Section MoreTextExtractorFacts.
Context `{OcrStack}.

Lemma rasterize_loop_fails (done rest : list Page) (images : list Image)
    (e : exn) (w : World) :
  map_outcome rasterize rest = Raise e ->
  for_each (seq (length done) (length rest)) images
    (fun images page_num =>
       page <- lift (document_getitem (done ++ rest) page_num) ;;
       pix <- lift (get_pixmap page) ;;
       img_data <- lift (Image_frombytes pix) ;;
       ret (images ++ [img_data])) w
  = (Raise e, w).
Proof.
  revert done images. induction rest as [|page rest IH];
    intros done images Hr; simpl in Hr; [discriminate|].
  cbn [length seq for_each]. unfold bind at 1.
  unfold bind at 1, lift at 1, document_getitem.
  rewrite nth_error_app2 by lia. rewrite Nat.sub_diag. cbn [nth_error].
  unfold rasterize at 1 in Hr. unfold and_then in Hr.
  unfold bind at 1, lift at 1.
  destruct (get_pixmap page) as [pix|e1] eqn:Hpix; [|congruence].
  unfold bind at 1, lift at 1.
  destruct (Image_frombytes pix) as [img|e2] eqn:Himg; [|congruence].
  cbn [ret].
  destruct (map_outcome rasterize rest) as [imgs'|e3] eqn:Hrest; [discriminate|].
  injection Hr as ->.
  specialize (IH (done ++ [page]) (images ++ [img]) eq_refl).
  rewrite length_app in IH. cbn [length] in IH.
  rewrite Nat.add_1_r, <- app_assoc in IH. cbn [app] in IH.
  unfold document_getitem in IH. exact IH.
Qed.

(** [convert_pdf_to_images] against the page-by-page description. *)
Lemma convert_pdf_to_images_cases (pdf_path : string) (w : World) :
  convert_pdf_to_images pdf_path w =
  match rasterize_document pdf_path with
  | Return images => (Return images, w)
  | Raise e =>
      (Raise e, logged ERROR ("Error converting PDF to images: " +:+ exn_str e) w)
  end.
Proof.
  unfold rasterize_document, and_then.
  destruct (fitz_open pdf_path) as [pages|e] eqn:Hopen.
  - destruct (map_outcome rasterize pages) as [images|e] eqn:Hr.
    + apply (convert_pdf_to_images_ok _ _ _ _ Hopen Hr).
    + unfold convert_pdf_to_images, try_except.
      unfold bind at 1, lift at 1. rewrite Hopen. unfold bind at 1.
      pose proof (rasterize_loop_fails [] pages [] e w Hr) as Hloop.
      cbn [length app] in Hloop. rewrite Hloop. reflexivity.
  - unfold convert_pdf_to_images, try_except.
    unfold bind at 1, lift at 1. rewrite Hopen. reflexivity.
Qed.

Lemma ocr_loop_fails (images : list Image) (text : list string) (e : exn) (w : World) :
  map_outcome ocr_image images = Raise e ->
  for_each images text
    (fun text img =>
       img_byte_arr <- lift (Image_save_png img) ;;
       result <- lift (paddle_ocr (OcrBytes img_byte_arr)) ;;
       if truthy result
       then ret (append_lines text (default [] result))
       else ret text) w
  = (Raise e, w).
Proof.
  revert text. induction images as [|img images IH]; intros text Hr;
    simpl in Hr; [discriminate|].
  unfold ocr_image at 1 in Hr. unfold and_then in Hr.
  cbn [for_each]. unfold bind at 1.
  unfold bind at 1, lift at 1.
  destruct (Image_save_png img) as [png|e1] eqn:Hpng; [|congruence].
  unfold bind at 1, lift at 1.
  destruct (paddle_ocr (OcrBytes png)) as [result|e2] eqn:Hocr; [|congruence].
  destruct (map_outcome ocr_image images) as [results'|e3] eqn:Hrest; [discriminate|].
  injection Hr as ->.
  destruct (truthy result); cbn [ret]; apply IH; reflexivity.
Qed.

(** [extract_text], case by case. *)
Lemma extract_text_cases (file_path : string) (w : World) :
  extract_text file_path w =
  if bool_decide (is_Some (w_fs w !! file_path)) then
    if PyStr.endswith (PyStr.lower file_path) ".pdf" then
      match rasterize_document file_path with
      | Raise e =>
          (Raise e,
           logged ERROR ("Error extracting text: " +:+ exn_str e)
             (logged ERROR ("Error converting PDF to images: " +:+ exn_str e) w))
      | Return images =>
          match map_outcome ocr_image images with
          | Raise e =>
              (Raise e, logged ERROR ("Error extracting text: " +:+ exn_str e) w)
          | Return results =>
              (Return (PyStr.join PyStr.newline (flat_map region_texts results)), w)
          end
      end
    else
      match paddle_ocr (OcrPath file_path) with
      | Raise e => (Raise e, logged ERROR ("Error extracting text: " +:+ exn_str e) w)
      | Return result => (Return (PyStr.join PyStr.newline (region_texts result)), w)
      end
  else
    (Raise (Exception FileNotFoundError ("File not found: " +:+ file_path)),
     logged ERROR ("Error extracting text: File not found: " +:+ file_path) w).
Proof.
  unfold extract_text, try_except, bind at 1, path_exists.
  destruct (bool_decide (is_Some (w_fs w !! file_path))); cbn [negb]; [|reflexivity].
  destruct (PyStr.endswith (PyStr.lower file_path) ".pdf").
  - unfold bind at 1. rewrite convert_pdf_to_images_cases.
    destruct (rasterize_document file_path) as [images|e]; [|reflexivity].
    unfold bind at 1.
    destruct (map_outcome ocr_image images) as [results|e] eqn:Hocr.
    + rewrite (ocr_loop images [] results w Hocr). reflexivity.
    + rewrite (ocr_loop_fails images [] e w Hocr). reflexivity.
  - unfold bind, lift.
    destruct (paddle_ocr (OcrPath file_path)) as [[[|res entries]|]|e]; reflexivity.
Qed.

(** X11. [convert_pdf_to_images] returns one image per page, in page order, and
    leaves the world alone; or it raises the exception of opening the
    document or of the first page that fails, after logging one error line,
    and returns no images at all. *)
Theorem convert_pdf_to_images_all_pages_or_first_failure
    (pdf_path : string) (w : World) :
  match convert_pdf_to_images pdf_path w with
  | (Return images, w') =>
      w' = w
      /\ exists pages, fitz_open pdf_path = Return pages
                       /\ map_outcome rasterize pages = Return images
                       /\ length images = length pages
  | (Raise e, w') =>
      rasterize_document pdf_path = Raise e
      /\ w' = logged ERROR ("Error converting PDF to images: " +:+ exn_str e) w
  end.
Proof.
  rewrite convert_pdf_to_images_cases.
  destruct (rasterize_document pdf_path) as [images|e] eqn:Hr; [|auto].
  split; [reflexivity|].
  unfold rasterize_document, and_then in Hr.
  destruct (fitz_open pdf_path) as [pages|e]; [|discriminate].
  exists pages. split; [reflexivity|]. split; [exact Hr|].
  apply (map_outcome_length _ _ _ Hr).
Qed.

(** X12. A PDF that cannot be rasterized: [extract_text] raises the exception of
    the rasterizer, and the log holds two new error lines, the one of
    [convert_pdf_to_images] and then its own. *)
Theorem conversion_failure_is_logged_twice
    (file_path : string) (w : World) (e : exn) :
  is_Some (w_fs w !! file_path) ->
  has_pdf_extension file_path ->
  rasterize_document file_path = Raise e ->
  extract_text file_path w
  = (Raise e,
     mkWorld (w_fs w) (w_readonly w)
       (w_log w ++ [ (ERROR, "Error converting PDF to images: " +:+ exn_str e);
                     (ERROR, "Error extracting text: " +:+ exn_str e) ])
       (w_stdout w)).
Proof.
  intros Hex Hpdf Hr. rewrite extract_text_cases.
  rewrite bool_decide_eq_true_2 by exact Hex.
  apply pdf_test_iff in Hpdf. rewrite Hpdf, Hr.
  unfold logged, logger_log. cbn [snd w_fs w_readonly w_log w_stdout].
  rewrite <- app_assoc. reflexivity.
Qed.


(** X14. [extract_text] writes no file and prints nothing.  When it returns,
    the world is untouched; when it raises, the log has grown and its last
    entry is the error line with the message of the exception raised. *)
Theorem extract_text_only_logs (file_path : string) (w : World) :
  only_logged w (snd (extract_text file_path w))
  /\ match fst (extract_text file_path w) with
     | Return _ => snd (extract_text file_path w) = w
     | Raise e =>
         exists earlier,
           w_log (snd (extract_text file_path w))
           = w_log w ++ earlier ++ [(ERROR, "Error extracting text: " +:+ exn_str e)]
     end.
Proof.
  assert (Hrefl : only_logged w w).
  { repeat split. exists []. rewrite app_nil_r. reflexivity. }
  assert (Hone : forall msg, only_logged w (logged ERROR msg w)).
  { intros msg. repeat split. exists [(ERROR, msg)]. reflexivity. }
  rewrite extract_text_cases.
  destruct (bool_decide (is_Some (w_fs w !! file_path))).
  - destruct (PyStr.endswith (PyStr.lower file_path) ".pdf").
    + destruct (rasterize_document file_path) as [images|e].
      * destruct (map_outcome ocr_image images) as [results|e]; cbn [fst snd].
        -- split; [exact Hrefl|reflexivity].
        -- split; [apply Hone|]. exists []. reflexivity.
      * cbn [fst snd]. split.
        -- repeat split. eexists [_; _]. cbn. rewrite <- app_assoc. reflexivity.
        -- eexists [_]. cbn. rewrite <- app_assoc. reflexivity.
    + destruct (paddle_ocr (OcrPath file_path)) as [result|e]; cbn [fst snd].
      * split; [exact Hrefl|reflexivity].
      * split; [apply Hone|]. exists []. reflexivity.
  - cbn [fst snd]. split; [apply Hone|]. exists []. reflexivity.
Qed.

(** X15. A PDF without pages: the empty text, and nothing logged. *)
Theorem pdf_without_pages_gives_empty_text (file_path : string) (w : World) :
  is_Some (w_fs w !! file_path) ->
  has_pdf_extension file_path ->
  fitz_open file_path = Return [] ->
  extract_text file_path w = (Return "", w).
Proof.
  intros Hex Hpdf Hopen. rewrite extract_text_cases.
  rewrite bool_decide_eq_true_2 by exact Hex.
  apply pdf_test_iff in Hpdf. rewrite Hpdf.
  unfold rasterize_document, and_then. rewrite Hopen. reflexivity.
Qed.

End MoreTextExtractorFacts.


(** ** More on saving the text *)

(** [save_extracted_text], case by case. *)
Lemma save_extracted_text_cases (text original_file_path : string) (w : World) :
  let output_path :=
    os_path.join (os_path.dirname original_file_path)
      ("extracted_"
       +:+ fst (os_path.splitext (os_path.basename original_file_path)) +:+ ".txt") in
  save_extracted_text text original_file_path w =
  match write_text output_path text w with
  | (Return _, w') =>
      (Return output_path, logged INFO ("Extracted text saved to: " +:+ output_path) w')
  | (Raise e, w') => (Raise e, logged ERROR ("Error saving text: " +:+ exn_str e) w')
  end.
Proof.
  intros output_path. unfold save_extracted_text, try_except. fold output_path.
  unfold bind at 1. destruct (write_text output_path text w) as [[[]|e] w']; reflexivity.
Qed.

(** X16. An output path that cannot be opened for writing: the exception is
    logged under "Error saving text" and raised again; no file changes. *)
Theorem save_extracted_text_failure_is_logged_and_raised
    (text original_file_path : string) (w : World) :
  let output_path :=
    os_path.join (os_path.dirname original_file_path)
      ("extracted_"
       +:+ fst (os_path.splitext (os_path.basename original_file_path)) +:+ ".txt") in
  output_path ∈ w_readonly w \/ w_fs w !! output_path = Some Directory ->
  exists e,
    save_extracted_text text original_file_path w
    = (Raise e, logged ERROR ("Error saving text: " +:+ exn_str e) w).
Proof.
  intros output_path Hbad.
  pose proof (save_extracted_text_cases text original_file_path w) as Hc.
  cbv zeta in Hc. fold output_path in Hc. rewrite Hc. unfold write_text.
  destruct (decide (output_path ∈ w_readonly w)) as [|Hrw]; [eauto|].
  destruct Hbad as [|Hdir]; [contradiction|]. rewrite Hdir. eauto.
Qed.

Lemma splitext_scan_fst (n : nat) (p : string) (i d : Z) :
  fst (os_path.splitext_scan n p i d) = p
  \/ fst (os_path.splitext_scan n p i d) = PyStr.slice p None (Some d).
Proof.
  revert i. induction n as [|n IH]; intros i; cbn [os_path.splitext_scan].
  - left. reflexivity.
  - destruct (negb _); [right; reflexivity|apply IH].
Qed.

(** The root [splitext] gives for a file name: the name itself, or the
    name up to its last dot. *)
Lemma splitext_root (b : string) :
  fst (os_path.splitext b) = b
  \/ exists d, last_index "." b = Some d
               /\ fst (os_path.splitext b) = substring 0 d b.
Proof.
  unfold os_path.splitext. rewrite (rfind_char "." b), (rfind_char "/" b).
  destruct (last_index "." b) as [d|] eqn:Hd.
  - destruct (_ >? _)%Z; [|left; reflexivity].
    match goal with
    | |- context [os_path.splitext_scan ?n b ?i ?z] =>
        destruct (splitext_scan_fst n b i z) as [->| ->]
    end; [left; reflexivity|].
    right. exists d. split; [reflexivity|].
    apply slice_to. apply last_index_Some in Hd as [Hg _].
    apply get_lt_length in Hg. lia.
  - left. destruct (last_index "/" b) as [j|].
    + destruct (Z.gtb_spec (-1) (Z.of_nat j)) as [Hgt|_]; [lia|reflexivity].
    + reflexivity.
Qed.

(** The name of the output never is the name of the original. *)
Lemma extracted_name_differs (b : string) :
  "extracted_" +:+ fst (os_path.splitext b) +:+ ".txt" <> b.
Proof.
  intros Heq. destruct (splitext_root b) as [Hs|(d & Hd & Hs)]; rewrite Hs in Heq.
  - apply (f_equal String.length) in Heq. rewrite !str_length_app in Heq.
    cbn [String.length] in Heq. lia.
  - assert (Hlen : String.length (substring 0 d b) = d).
    { rewrite substring_length. apply last_index_Some in Hd as [Hg _].
      apply get_lt_length in Hg. lia. }
    assert (Hd' : last_index "." (("extracted_" +:+ substring 0 d b) +:+ ".txt")
                  = Some (String.length ("extracted_" +:+ substring 0 d b) + 0)%nat).
    { rewrite last_index_app. reflexivity. }
    rewrite str_app_assoc, Heq, Hd in Hd'. injection Hd' as Hd'.
    rewrite str_length_app, Hlen in Hd'. cbn [String.length] in Hd'. lia.
Qed.

(** X17. [save_extracted_text] never writes over the original document: the
    path it returns differs from the original path, and what the original
    path holds is unchanged. *)
Theorem save_never_overwrites_the_original
    (text original_file_path output_path : string) (w w' : World) :
  save_extracted_text text original_file_path w = (Return output_path, w') ->
  output_path <> original_file_path
  /\ w_fs w' !! original_file_path = w_fs w !! original_file_path.
Proof.
  intros Hrun.
  pose proof (save_extracted_text_cases text original_file_path w) as Hc.
  cbv zeta in Hc. rewrite Hc in Hrun. clear Hc.
  set (name := "extracted_"
               +:+ fst (os_path.splitext (os_path.basename original_file_path))
               +:+ ".txt") in *.
  set (out := os_path.join (os_path.dirname original_file_path) name) in *.
  assert (Hname : absent "/" name).
  { apply absent_app; [apply last_index_None; reflexivity|].
    apply absent_app; [|apply last_index_None; reflexivity].
    apply splitext_absent, basename_absent_slash. }
  assert (Hne : out <> original_file_path).
  { intros Heq.
    destruct (join_dirname_basename original_file_path name Hname) as [_ Hb].
    fold out in Hb. rewrite Heq in Hb.
    apply (extracted_name_differs (os_path.basename original_file_path)).
    symmetry. exact Hb. }
  unfold write_text in Hrun.
  destruct (decide (out ∈ w_readonly w)); [discriminate|].
  destruct (w_fs w !! out) as [[| |]|]; try discriminate;
    injection Hrun as <- <-; (split; [exact Hne|]);
    cbn [logged logger_log snd w_fs]; apply lookup_insert_ne, Hne.
Qed.

Section PipelineFacts.
Context `{Ollama} `{JsonModule}.


End PipelineFacts.

(** ** The entry points *)

Lemma extract_text_frame `{OcrStack} (file_path : string) (w : World) :
  w_fs (snd (extract_text file_path w)) = w_fs w
  /\ w_readonly (snd (extract_text file_path w)) = w_readonly w
  /\ w_stdout (snd (extract_text file_path w)) = w_stdout w.
Proof.
  rewrite extract_text_cases.
  destruct (bool_decide (is_Some (w_fs w !! file_path))); [|repeat split].
  destruct (PyStr.endswith (PyStr.lower file_path) ".pdf").
  - destruct (rasterize_document file_path) as [images|e]; [|repeat split].
    destruct (map_outcome ocr_image images) as [results|e]; repeat split.
  - destruct (paddle_ocr (OcrPath file_path)) as [result|e]; repeat split.
Qed.

Lemma text_extractor_main_output :
  os_path.join
    (os_path.dirname "C:/Users/harsh/Downloads/Aryan-Rajpurkar_resume.pdf")
    ("extracted_"
     +:+ fst (os_path.splitext
                (os_path.basename "C:/Users/harsh/Downloads/Aryan-Rajpurkar_resume.pdf"))
     +:+ ".txt")
  = "C:/Users/harsh/Downloads/extracted_Aryan-Rajpurkar_resume.txt".
Proof. vm_compute. reflexivity. Qed.

(** X19. The script of [text_extractor.py] never raises, whatever the OCR
    stack does and whatever the files are.  It either writes the text to
    the one output path and announces that path as its last line of output,
    or it changes no file and its last log entry is the line "Failed to
    extract text" with the message of the exception.  No other path is
    ever written. *)
Theorem text_extractor_main_never_raises `{TextExtractorClass} (w : World) :
  let output_file :=
    "C:/Users/harsh/Downloads/extracted_Aryan-Rajpurkar_resume.txt" in
  exists w',
    text_extractor_main w = (Return tt, w')
    /\ (forall p, p <> output_file -> w_fs w' !! p = w_fs w !! p)
    /\ ((exists text,
           w_fs w' !! output_file = Some (TextFile text)
           /\ last (w_stdout w')
              = Some (PyStr.newline +:+ "Text extracted and saved to: " +:+ output_file))
        \/ (w_fs w' = w_fs w
            /\ exists e,
                 last (w_log w')
                 = Some (ERROR, "Failed to extract text: " +:+ exn_str e))).
Proof.
  intros output_file. unfold text_extractor_main, try_except.
  unfold bind at 1, lift.
  destruct TextExtractor_init as [extractor|e].
  2:{ eexists. split; [reflexivity|]. split; [reflexivity|]. right.
      split; [reflexivity|]. exists e. cbn. apply last_snoc. }
  unfold bind at 1. cbn [print].
  set (w1 := mkWorld _ _ _ _).
  unfold bind at 1.
  pose proof (@extract_text_frame extractor
                "C:/Users/harsh/Downloads/Aryan-Rajpurkar_resume.pdf" w1)
    as (Hfs & Hro & _).
  destruct (@extract_text extractor _ w1) as [[text|e] w2].
  2:{ cbn [snd] in Hfs. eexists. split; [reflexivity|].
      split; [intros p _; cbn; rewrite Hfs; reflexivity|]. right.
      split; [cbn; rewrite Hfs; reflexivity|]. exists e. cbn. apply last_snoc. }
  cbn [snd] in Hfs, Hro. change (w_fs w1) with (w_fs w) in Hfs.
  unfold bind at 1.
  pose proof (save_extracted_text_cases text
                "C:/Users/harsh/Downloads/Aryan-Rajpurkar_resume.pdf" w2) as Hc.
  cbv zeta in Hc. rewrite text_extractor_main_output in Hc. rewrite Hc. clear Hc.
  fold output_file. unfold write_text.
  destruct (decide (output_file ∈ w_readonly w2)).
  { eexists. split; [reflexivity|].
    split; [intros p _; cbn; rewrite Hfs; reflexivity|]. right.
    split; [cbn; rewrite Hfs; reflexivity|]. eexists (Exception PermissionError _). cbn. apply last_snoc. }
  destruct (w_fs w2 !! output_file) as [[| |]|] eqn:Hout.
  1:{ eexists. split; [reflexivity|].
      split; [intros p _; cbn; rewrite Hfs; reflexivity|]. right.
      split; [cbn; rewrite Hfs; reflexivity|]. eexists (Exception IsADirectoryError _). cbn. apply last_snoc. }
  all: eexists; (split; [reflexivity|]);
    (split; [intros p Hp; cbn; rewrite lookup_insert_ne by congruence;
             rewrite Hfs; reflexivity|]);
    left; exists text; (split; [cbn; apply lookup_insert_eq|cbn; apply last_snoc]).
Qed.

Section EntryPointFacts.
Context `{Ollama} `{JsonModule}.

(** X20. The script of [info_extractor.py] does nothing at all when its input
    file does not exist: no output, no log entry, no file. *)
Theorem info_extractor_main_without_input_does_nothing (w : World) :
  w_fs w !! "C:/Users/harsh/Downloads/extracted_Aryan-Rajpurkar_resume.txt" = None ->
  info_extractor_main w = (Return tt, w).
Proof.
  intros Hnone. unfold info_extractor_main, bind at 1, path_exists.
  rewrite Hnone. rewrite bool_decide_eq_false_2; [reflexivity|].
  intros [x Hx]. discriminate.
Qed.

Lemma info_extractor_main_found (w : World) :
  let resume_text_path :=
    "C:/Users/harsh/Downloads/extracted_Aryan-Rajpurkar_resume.txt" in
  let info := record_for w resume_text_path in
  is_Some (w_fs w !! resume_text_path) ->
  exists w',
    only_printed w w'
    /\ info_extractor_main w
       = save_results_to_json (PyDict info) "extracted_resume_info.json"
           (printed (json_dumps_indent2 (PyDict info)) w').
Proof.
  intros resume_text_path info Hex.
  unfold info_extractor_main, bind at 1, path_exists. fold resume_text_path.
  rewrite bool_decide_eq_true_2 by exact Hex.
  unfold bind at 1.
  change (print ("Extracting information from " +:+ resume_text_path) w)
    with (Return tt, printed ("Extracting information from " +:+ resume_text_path) w).
  set (w1 := printed _ w).
  assert (Hrec : record_for w1 resume_text_path = info).
  { unfold info, record_for.
    rewrite (process_result_depends_on_files resume_text_path w w1) by reflexivity.
    reflexivity. }
  unfold bind at 1.
  destruct (process_resume_file_frame resume_text_path w1) as (r & w2 & Hrun & Hp).
  unfold record_for in Hrec. rewrite Hrun in Hrec. cbn [fst] in Hrec.
  rewrite Hrun. subst r. exists w2. split.
  - apply (only_printed_trans w w1 w2); [apply only_printed_print|exact Hp].
  - reflexivity.
Qed.

(** X21. When the input path exists, the script of [info_extractor.py] prints
    the record of the file as JSON and saves the very same text under
    [extracted_resume_info.json]; it raises only when that file cannot be
    opened for writing, and then no file has changed.  A file that cannot
    be read is no failure: its error record is printed and saved. *)
Theorem info_extractor_main_saves_what_it_prints (w : World) :
  let resume_text_path :=
    "C:/Users/harsh/Downloads/extracted_Aryan-Rajpurkar_resume.txt" in
  let shown := json_dumps_indent2 (PyDict (record_for w resume_text_path)) in
  is_Some (w_fs w !! resume_text_path) ->
  (exists w',
     info_extractor_main w = (Return tt, w')
     /\ w_fs w' = <["extracted_resume_info.json" := TextFile shown]> (w_fs w)
     /\ shown ∈ w_stdout w'
     /\ last (w_stdout w') = Some "Results saved to extracted_resume_info.json")
  \/ (exists e w',
        info_extractor_main w = (Raise e, w')
        /\ w_fs w' = w_fs w
        /\ shown ∈ w_stdout w'
        /\ ("extracted_resume_info.json" ∈ w_readonly w
            \/ w_fs w !! "extracted_resume_info.json" = Some Directory)).
Proof.
  intros resume_text_path shown Hex.
  destruct (info_extractor_main_found w Hex) as (w2 & (Hfs & Hro & _) & ->).
  fold resume_text_path. fold shown.
  unfold save_results_to_json, bind, write_text. fold shown.
  assert (Hshown : shown ∈ w_stdout (printed shown w2)).
  { cbn. apply elem_of_app. right. apply list_elem_of_singleton. reflexivity. }
  cbn [printed print snd w_fs w_readonly]. rewrite Hro, Hfs.
  cbn [printed print snd w_stdout] in Hshown.
  destruct (decide ("extracted_resume_info.json" ∈ w_readonly w)) as [Hin|Hnin].
  { right. eexists _, _. split; [reflexivity|].
    split; [reflexivity|]. split; [exact Hshown|]. left. exact Hin. }
  destruct (w_fs w !! "extracted_resume_info.json") as [[| |]|] eqn:Hnode.
  1:{ right. eexists _, _. split; [reflexivity|].
      split; [reflexivity|]. split; [exact Hshown|].
      right. reflexivity. }
  all: left; eexists; (split; [reflexivity|]);
    (split; [reflexivity|]);
    (split; [cbn; apply elem_of_app; left; exact Hshown|cbn; apply last_snoc]).
Qed.

End EntryPointFacts.

(** ** The program at sample inputs *)

Example python_string_methods :
  PyStr.find "ab{c}d}" "{" = 2%Z /\ PyStr.rfind "ab{c}d}" "}" = 6%Z
  /\ PyStr.find "abc" "{" = (-1)%Z /\ PyStr.rfind "" "x" = (-1)%Z
  /\ PyStr.slice "ab{c}d}" (Some 2%Z) (Some 7%Z) = "{c}d}"
  /\ PyStr.slice "abcdef" (Some (-2)%Z) None = "ef"
  /\ PyStr.endswith (PyStr.lower "x.PdF") ".pdf" = true
  /\ PyStr.rstrip "/" "a//b//" = "a//b"
  /\ PyStr.join "," ["a"; "b"; "c"] = "a,b,c".
Proof. repeat split; reflexivity. Qed.

Example posix_paths :
  os_path.dirname "cv//resume.pdf" = "cv" /\ os_path.dirname "///x" = "///"
  /\ os_path.dirname "resume.pdf" = ""
  /\ os_path.basename "cv/archive.tar.gz" = "archive.tar.gz"
  /\ os_path.splitext "archive.tar.gz" = ("archive.tar", ".gz")
  /\ os_path.splitext ".bashrc" = (".bashrc", "")
  /\ os_path.join "cv" "a.txt" = "cv/a.txt" /\ os_path.join "" "a.txt" = "a.txt".
Proof. repeat split; reflexivity. Qed.

(** The example of the specification: a reply that is one JSON object,
    here after a few words of prose, yields exactly that record. *)
Example jane_doe_is_extracted :
  @extract_resume_info_with_qwen (canned_ollama ("Here you go: " +:+ jane_doe_reply))
    python_json "Jane Doe, jane@x.com, Skills: Python, AWS" sample_world
  = (Return jane_doe_record, sample_world).
Proof. vm_compute. reflexivity. Qed.

(** A reply with a brace pair that is not JSON, and a chat service that is
    down, both end in the default record and one printed line. *)
Example failures_degrade_to_default :
  fst (@extract_resume_info_with_qwen (canned_ollama "{ not json }") python_json
         "Jane Doe" sample_world) = Return default_record
  /\ @extract_resume_info_with_qwen unreachable_ollama python_json
        "Jane Doe" sample_world
      = (Return default_record,
         printed "Error during extraction: Failed to connect to Ollama" sample_world).
Proof. split; vm_compute; reflexivity. Qed.

(** The batch over the sample directory: one text file that reads, one
    that does not decode; two records, each with its file name. *)
Example batch_over_sample_directory :
  fst (@process_all_resumes (canned_ollama jane_doe_reply) python_json "cv" sample_world)
  = Return [ jane_doe_record ++ [("file_name", PyStr "a.txt")];
             [ ("error", PyStr "'utf-8' codec can't decode byte: invalid start byte");
               ("file_name", PyStr "b.txt") ] ].
Proof. vm_compute. reflexivity. Qed.

Example json_text_of_a_list :
  PyJson.dumps_indent2 (PyList [PyInt 1; PyList []; PyNone])
  = "[" +:+ PyStr.newline +:+ "  1," +:+ PyStr.newline +:+ "  [],"
    +:+ PyStr.newline +:+ "  null" +:+ PyStr.newline +:+ "]".
Proof. reflexivity. Qed.

(** ** The theorems at sample inputs *)

Lemma unparseable_response_gives_default_record_witness :
  exists w',
    @extract_resume_info_with_qwen (canned_ollama "I cannot help with that.")
      python_json "Jane Doe" sample_world
    = (Return default_record, w')
    /\ w_fs w' = w_fs sample_world.
Proof.
  apply (@unparseable_response_gives_default_record
           (canned_ollama "I cannot help with that.") python_json
           "Jane Doe" sample_world
           {| message := {| role := "assistant";
                            content := "I cannot help with that." |} |}).
  - reflexivity.
  - left. apply first_index_None. reflexivity.
Defined.

Lemma json_payload_is_first_brace_through_last_brace_witness :
  exists json_content,
    json_content_of "Here: {} and } done" = Some json_content
    /\ (forall k, String.get k json_content =
                  if (6 + k <=? 13)%nat
                  then String.get (6 + k) "Here: {} and } done" else None)
    /\ @extract_resume_info_with_qwen (canned_ollama "Here: {} and } done")
         python_json "Jane Doe" sample_world
       = match json_loads json_content with
         | Return (PyDict d) =>
             (Return (map (fun key => (key, projected d key)) recognized_keys),
              sample_world)
         | Return _ =>
             (Return default_record,
              printed "Error during extraction: object has no attribute 'get'"
                sample_world)
         | Raise e =>
             (Return default_record,
              printed ("Error during extraction: " +:+ exn_str e) sample_world)
         end.
Proof.
  apply (@json_payload_is_first_brace_through_last_brace
           (canned_ollama "Here: {} and } done") python_json
           "Jane Doe" sample_world
           {| message := {| role := "assistant";
                            content := "Here: {} and } done" |} |} 6 13).
  - reflexivity.
  - apply first_index_Some. reflexivity.
  - apply last_index_Some. reflexivity.
Defined.

Lemma parsed_object_is_projected_onto_recognized_keys_witness :
  exists result,
    @extract_resume_info_with_qwen (canned_ollama "ok {} ok")
      python_json "Jane Doe" sample_world
    = (Return result, sample_world)
    /\ dict_keys result = recognized_keys
    /\ (forall key, In key ["full_name"; "phone_number"; "email"; "location"] ->
          dict_get result key = Some (default PyNone (dict_get [] key)))
    /\ dict_get result "tech_stack"
       = Some (default (PyList []) (dict_get [] "tech_stack"))
    /\ (forall key, ~ In key recognized_keys -> dict_get result key = None).
Proof.
  apply (@parsed_object_is_projected_onto_recognized_keys
           (canned_ollama "ok {} ok") python_json "Jane Doe" sample_world
           {| message := {| role := "assistant"; content := "ok {} ok" |} |}
           3 4 []).
  - reflexivity.
  - apply first_index_Some. reflexivity.
  - apply last_index_Some. reflexivity.
  - reflexivity.
Defined.

Lemma missing_path_raises_file_not_found_witness :
  @extract_text (sample_ocr (fun _ => None)) "cv/missing.pdf" sample_world
  = (Raise (Exception FileNotFoundError "File not found: cv/missing.pdf"),
     logged ERROR "Error extracting text: File not found: cv/missing.pdf" sample_world)
  /\ w_fs (snd (@extract_text (sample_ocr (fun _ => None)) "cv/missing.pdf" sample_world))
     = w_fs sample_world.
Proof.
  apply (@missing_path_raises_file_not_found (sample_ocr (fun _ => None))
           "cv/missing.pdf" sample_world).
  reflexivity.
Defined.

Lemma empty_ocr_result_gives_empty_string_witness :
  @extract_text (sample_ocr (fun _ => Some [])) "cv/scan.png" sample_world
  = (Return "", sample_world).
Proof.
  apply (@empty_ocr_result_gives_empty_string (sample_ocr (fun _ => Some []))
           "cv/scan.png" sample_world (Some [])).
  - eexists. reflexivity.
  - intros Hpdf. apply pdf_test_iff in Hpdf. discriminate Hpdf.
  - reflexivity.
  - reflexivity.
Defined.


Lemma save_extracted_text_writes_sibling_file_witness :
  exists w',
    save_extracted_text "Jane Doe" "cv/resume.pdf" sample_world
    = (Return "cv/extracted_resume.txt", w')
    /\ w_fs w' = <["cv/extracted_resume.txt" := TextFile "Jane Doe"]> (w_fs sample_world)
    /\ os_path.dirname "cv/extracted_resume.txt" = os_path.dirname "cv/resume.pdf"
    /\ os_path.basename "cv/extracted_resume.txt" = "extracted_resume.txt".
Proof.
  apply (save_extracted_text_writes_sibling_file "Jane Doe" "cv/resume.pdf" sample_world).
  - vm_compute. discriminate.
  - vm_compute. discriminate.
Defined.


(** ** More theorems at sample inputs *)

Lemma chat_failure_gives_default_record_witness :
  @extract_resume_info_with_qwen unreachable_ollama python_json "Jane Doe" sample_world
  = (Return default_record,
     printed "Error during extraction: Failed to connect to Ollama" sample_world).
Proof.
  apply (@chat_failure_gives_default_record unreachable_ollama python_json
           "Jane Doe" sample_world
           (Exception ConnectionError "Failed to connect to Ollama")).
  reflexivity.
Defined.

Lemma reply_without_braces_fails_silently_witness :
  @extract_resume_info_with_qwen (canned_ollama "I cannot help with that.")
    python_json "Jane Doe" sample_world
  = (Return default_record, sample_world).
Proof.
  apply (@reply_without_braces_fails_silently
           (canned_ollama "I cannot help with that.") python_json
           "Jane Doe" sample_world
           {| message := {| role := "assistant";
                            content := "I cannot help with that." |} |}).
  - reflexivity.
  - left. apply last_index_None. reflexivity.
Defined.


Lemma save_results_failure_leaves_no_trace_witness :
  exists e,
    @save_results_to_json python_json (PyList []) "cv/results.json" locked_world
    = (Raise e, locked_world).
Proof.
  apply (@save_results_failure_leaves_no_trace python_json
           (PyList []) "cv/results.json" locked_world).
  left. apply (bool_decide_unpack _). vm_compute. exact I.
Defined.

Lemma save_results_last_write_wins_witness :
  exists w1 w2,
    @save_results_to_json python_json (PyList [PyInt 1]) "cv/results.json" sample_world
    = (Return tt, w1)
    /\ @save_results_to_json python_json (PyList []) "cv/results.json" w1
       = (Return tt, w2)
    /\ w_fs w2
       = <["cv/results.json" := TextFile (@json_dumps_indent2 python_json (PyList []))]>
           (w_fs sample_world)
    /\ w_stdout w2 = w_stdout sample_world
                     ++ [ "Results saved to " +:+ "cv/results.json";
                          "Results saved to " +:+ "cv/results.json" ]
    /\ w_log w2 = w_log sample_world.
Proof.
  apply (@save_results_last_write_wins python_json
           (PyList [PyInt 1]) (PyList []) "cv/results.json" sample_world).
  - vm_compute. discriminate.
  - vm_compute. discriminate.
Defined.

Lemma conversion_failure_is_logged_twice_witness :
  @extract_text broken_pdf_ocr "cv/resume.pdf" sample_world
  = (Raise (Exception RuntimeError "cannot open broken document"),
     mkWorld (w_fs sample_world) (w_readonly sample_world)
       (w_log sample_world
        ++ [ (ERROR, "Error converting PDF to images: " +:+ "cannot open broken document");
             (ERROR, "Error extracting text: " +:+ "cannot open broken document") ])
       (w_stdout sample_world)).
Proof.
  apply (@conversion_failure_is_logged_twice broken_pdf_ocr "cv/resume.pdf" sample_world
           (Exception RuntimeError "cannot open broken document")).
  - eexists. reflexivity.
  - exists "cv/resume", "p"%char, "d"%char, "f"%char. auto.
  - reflexivity.
Defined.


Lemma pdf_without_pages_gives_empty_text_witness :
  @extract_text empty_pdf_ocr "cv/resume.pdf" sample_world = (Return "", sample_world).
Proof.
  apply (@pdf_without_pages_gives_empty_text empty_pdf_ocr "cv/resume.pdf" sample_world).
  - eexists. reflexivity.
  - exists "cv/resume", "p"%char, "d"%char, "f"%char. auto.
  - reflexivity.
Defined.

Lemma save_extracted_text_failure_is_logged_and_raised_witness :
  exists e,
    save_extracted_text "Jane Doe" "cv/resume.pdf" locked_world
    = (Raise e, logged ERROR ("Error saving text: " +:+ exn_str e) locked_world).
Proof.
  apply (save_extracted_text_failure_is_logged_and_raised
           "Jane Doe" "cv/resume.pdf" locked_world).
  left. apply (bool_decide_unpack _). vm_compute. exact I.
Defined.

Lemma save_never_overwrites_the_original_witness :
  "cv/extracted_a.txt" <> "cv/a.txt"
  /\ w_fs (snd (save_extracted_text "Jane Doe" "cv/a.txt" sample_world)) !! "cv/a.txt"
     = w_fs sample_world !! "cv/a.txt".
Proof.
  apply (save_never_overwrites_the_original "Jane Doe" "cv/a.txt" "cv/extracted_a.txt"
           sample_world (snd (save_extracted_text "Jane Doe" "cv/a.txt" sample_world))).
  vm_compute. reflexivity.
Defined.


Lemma info_extractor_main_without_input_does_nothing_witness :
  @info_extractor_main (canned_ollama jane_doe_reply) python_json sample_world
  = (Return tt, sample_world).
Proof.
  apply (@info_extractor_main_without_input_does_nothing
           (canned_ollama jane_doe_reply) python_json sample_world).
  vm_compute. reflexivity.
Defined.

Lemma info_extractor_main_saves_what_it_prints_witness :
  let shown :=
    @json_dumps_indent2 python_json
      (PyDict (@record_for (canned_ollama jane_doe_reply) python_json downloads_world
                 "C:/Users/harsh/Downloads/extracted_Aryan-Rajpurkar_resume.txt")) in
  (exists w',
     @info_extractor_main (canned_ollama jane_doe_reply) python_json downloads_world
     = (Return tt, w')
     /\ w_fs w' = <["extracted_resume_info.json" := TextFile shown]> (w_fs downloads_world)
     /\ shown ∈ w_stdout w'
     /\ last (w_stdout w') = Some "Results saved to extracted_resume_info.json")
  \/ (exists e w',
        @info_extractor_main (canned_ollama jane_doe_reply) python_json downloads_world
        = (Raise e, w')
        /\ w_fs w' = w_fs downloads_world
        /\ shown ∈ w_stdout w'
        /\ ("extracted_resume_info.json" ∈ w_readonly downloads_world
            \/ w_fs downloads_world !! "extracted_resume_info.json" = Some Directory)).
Proof.
  apply (@info_extractor_main_saves_what_it_prints
           (canned_ollama jane_doe_reply) python_json downloads_world).
  eexists. vm_compute. reflexivity.
Defined.

